(** * cbatticon-apm: battery status, time estimation and threshold tracking

    A shallow embedding of the engine of [src/cbatticon.c]: the status
    classifier [get_battery_status], the charge reader [get_battery_charge],
    the self-derived time estimator [get_battery_time_estimation] with its
    process-wide memo, the option normalisation at the end of [get_options],
    the string formatters and the poll routine [update_tray_icon_status].

    C [gint] values are integers [Z]; C [gdouble] values are IEEE 754
    binary64 numbers, computed with the reference implementation of the
    standard library ([SpecFloat], precision 53, maximal exponent 1024).

    The static variables of the program are threaded through the functions
    as records.  What a poll does to the tray icon, the notification
    daemon, the system log and the shell is returned as a list of events.
    The program is taken as built with [WITH_NOTIFY], with messages
    untranslated; the debug output on [stdout] is left out. *)

From Stdlib Require Import ZArith List Bool String Ascii DecimalString Lia.
From Stdlib Require Import Floats.SpecFloat.
Import ListNotations.

Local Open Scope Z_scope.

(** ** Machine numbers *)

Definition gint := Z.
Definition gboolean := bool.

Definition INT_MIN : Z := - 2 ^ 31.
Definition INT_MAX : Z := 2 ^ 31 - 1.

Module Double.

Definition prec : Z := 53.
Definition emax : Z := 1024.

Definition gdouble := spec_float.

(** Conversion of an integer to [double] (exact below 2^53). *)
Definition of_int (z : Z) : gdouble := binary_normalize prec emax z 0 false.

Definition sub (x y : gdouble) : gdouble := SFsub prec emax x y.
Definition div (x y : gdouble) : gdouble := SFdiv prec emax x y.

(** C [==] and [!=]: a NaN is different from everything. *)
Definition eqb (x y : gdouble) : bool := SFeqb x y.
Definition neqb (x y : gdouble) : bool := negb (SFeqb x y).

(** The integral part of a finite number, fraction discarded. *)
Definition truncate (x : gdouble) : option Z :=
  match x with
  | S754_zero _ => Some 0
  | S754_finite s m e =>
      let mag := match e with
                 | Zneg p => Z.shiftr (Zpos m) (Zpos p)
                 | _ => Z.shiftl (Zpos m) e
                 end in
      Some (if s then - mag else mag)
  | S754_infinity _ | S754_nan => None
  end.

(** The cast [(gint) x].  C leaves the conversion undefined when the
    integral part is not representable (NaN, infinities, out of range):
    the model answers [None] there. *)
Definition to_int (x : gdouble) : option gint :=
  match truncate x with
  | Some z => if (INT_MIN <=? z) && (z <=? INT_MAX) then Some z else None
  | None => None
  end.

Definition is_zero (x : gdouble) : bool :=
  match x with S754_zero _ => true | _ => false end.

End Double.

Abbreviation gdouble := Double.gdouble.

(** ** Constants and enumerations of the source *)

Definition DEFAULT_UPDATE_INTERVAL : gint := 5.
Definition DEFAULT_LOW_LEVEL : gint := 20.
Definition DEFAULT_CRITICAL_LEVEL : gint := 5.

Inductive icon_type_t :=
| UNKNOWN_ICON
| BATTERY_ICON_STANDARD
| BATTERY_ICON_NOTIFICATION
| BATTERY_ICON_GPM.

Inductive battery_state :=
| MISSING
| UNKNOWN
| CHARGED
| CHARGING
| DISCHARGING
| NOTCHARGING
| LOW_LEVEL
| CRITICAL_LEVEL.

Definition battery_state_eqb (a b : battery_state) : bool :=
  match a, b with
  | MISSING, MISSING | UNKNOWN, UNKNOWN | CHARGED, CHARGED
  | CHARGING, CHARGING | DISCHARGING, DISCHARGING
  | NOTCHARGING, NOTCHARGING | LOW_LEVEL, LOW_LEVEL
  | CRITICAL_LEVEL, CRITICAL_LEVEL => true
  | _, _ => false
  end.

(** [struct apm_info] of libapm, the fields the program reads. *)
Record apm_info := {
  battery_status : gint;
  battery_flags : gint;
  battery_percentage : gint;
  battery_time : gint;
  using_minutes : gint
}.

(** ** The estimation memo *)

(** A monotonic clock reading, and a [GTimer] as the reading at which it
    was last started. *)
Definition clock := Z.

Record GTimer := { timer_start : clock }.

Definition g_timer_start (now : clock) : GTimer := {| timer_start := now |}.

Record estimation := {
  estimation_remaining_capacity : gdouble;
  estimation_time : gint;
  estimation_timer : GTimer
}.

Definition minus_one : gdouble := Double.of_int (-1).

(** The static initialisers, with the timer [main] creates. *)
Definition estimation_init (now : clock) : estimation :=
  {| estimation_remaining_capacity := minus_one;
     estimation_time := -1;
     estimation_timer := g_timer_start now |}.

Definition reset_battery_time_estimation (now : clock) (e : estimation) : estimation :=
  {| estimation_remaining_capacity := minus_one;
     estimation_time := -1;
     estimation_timer := g_timer_start now |}.

(** GLib's timer with a microsecond clock: the elapsed seconds are the
    difference of the two readings divided by 1e6. *)
Definition monotonic_elapsed (t : GTimer) (now : clock) : gdouble :=
  Double.div (Double.of_int (now - timer_start t)) (Double.of_int 1000000).

Section Estimator.

(** [g_timer_elapsed timer now]: the seconds GLib reports for [timer]
    when the clock reads [now]. *)
Variable g_timer_elapsed : GTimer -> clock -> gdouble.

(** [get_battery_time_estimation]: the result is the value written to
    [*time] and the new memo; [None] when the cast to [gint] is
    undefined. *)
Definition get_battery_time_estimation (now : clock)
    (remaining_capacity y : gdouble) (e : estimation)
    : option (gint * estimation) :=
  let e1 :=
    if Double.eqb (estimation_remaining_capacity e) minus_one
    then {| estimation_remaining_capacity := remaining_capacity;
            estimation_time := estimation_time e;
            estimation_timer := estimation_timer e |}
    else e in
  if Double.neqb remaining_capacity (estimation_remaining_capacity e1) then
    let estimation_elapsed := g_timer_elapsed (estimation_timer e1) now in
    let estimation_current_rate :=
      Double.div (Double.sub remaining_capacity (estimation_remaining_capacity e1))
                 estimation_elapsed in
    let estimation_seconds :=
      Double.div (Double.sub y remaining_capacity) estimation_current_rate in
    match Double.to_int (Double.div estimation_seconds (Double.of_int 60)) with
    | Some time =>
        Some (time,
              {| estimation_remaining_capacity := remaining_capacity;
                 estimation_time := time;
                 estimation_timer := g_timer_start now |})
    | None => None
    end
  else Some (estimation_time e1, e1).

End Estimator.

(** ** The status classifier *)

(** [get_battery_status] always returns [TRUE]; the model gives the value
    written to [*status]. *)
Definition get_battery_status (info : apm_info) : battery_state :=
  let status :=
    match battery_status info with
    | 0 | 1 | 2 => DISCHARGING
    | 3 => if battery_percentage info =? 100 then CHARGED else CHARGING
    | 4 => MISSING
    | _ => UNKNOWN
    end in
  if negb (Z.land (battery_flags info) (Z.shiftl 1 3) =? 0) then
    if battery_percentage info =? 100 then CHARGED else CHARGING
  else status.

(** ** The configuration and its normalisation *)

Record configuration := {
  display_version : gboolean;
  debug_output : gboolean;
  update_interval : gint;
  icon_type : icon_type_t;
  low_level : gint;
  critical_level : gint;
  command_low_level : option string;
  command_critical_level : option string;
  command_left_click : option string;
  hide_notification : gboolean;
  list_icon_types : gboolean
}.

Definition configuration_init : configuration :=
  {| display_version := false;
     debug_output := false;
     update_interval := DEFAULT_UPDATE_INTERVAL;
     icon_type := UNKNOWN_ICON;
     low_level := DEFAULT_LOW_LEVEL;
     critical_level := DEFAULT_CRITICAL_LEVEL;
     command_low_level := None;
     command_critical_level := None;
     command_left_click := None;
     hide_notification := false;
     list_icon_types := false |}.

Definition set_icon_type (c : configuration) (t : icon_type_t) : configuration :=
  {| display_version := display_version c;
     debug_output := debug_output c;
     update_interval := update_interval c;
     icon_type := t;
     low_level := low_level c;
     critical_level := critical_level c;
     command_low_level := command_low_level c;
     command_critical_level := command_critical_level c;
     command_left_click := command_left_click c;
     hide_notification := hide_notification c;
     list_icon_types := list_icon_types c |}.

Definition set_update_interval (c : configuration) (v : gint) : configuration :=
  {| display_version := display_version c;
     debug_output := debug_output c;
     update_interval := v;
     icon_type := icon_type c;
     low_level := low_level c;
     critical_level := critical_level c;
     command_low_level := command_low_level c;
     command_critical_level := command_critical_level c;
     command_left_click := command_left_click c;
     hide_notification := hide_notification c;
     list_icon_types := list_icon_types c |}.

Definition set_levels (c : configuration) (low critical : gint) : configuration :=
  {| display_version := display_version c;
     debug_output := debug_output c;
     update_interval := update_interval c;
     icon_type := icon_type c;
     low_level := low;
     critical_level := critical;
     command_low_level := command_low_level c;
     command_critical_level := command_critical_level c;
     command_left_click := command_left_click c;
     hide_notification := hide_notification c;
     list_icon_types := list_icon_types c |}.

(** Which icon sets are installed: the three [access] tests of
    [HAS_STANDARD_ICON_TYPE], [HAS_NOTIFICATION_ICON_TYPE] and
    [HAS_GPM_ICON_TYPE]. *)
Record icon_files := {
  HAS_STANDARD_ICON_TYPE : bool;
  HAS_NOTIFICATION_ICON_TYPE : bool;
  HAS_GPM_ICON_TYPE : bool
}.

Definition select_icon_type (files : icon_files) (icon_type_string : option string)
    (c : configuration) : configuration :=
  let c1 :=
    match icon_type_string with
    | Some s =>
        if String.eqb s "standard" && HAS_STANDARD_ICON_TYPE files
        then set_icon_type c BATTERY_ICON_STANDARD
        else if String.eqb s "notification" && HAS_NOTIFICATION_ICON_TYPE files
        then set_icon_type c BATTERY_ICON_NOTIFICATION
        else if String.eqb s "gpm" && HAS_GPM_ICON_TYPE files
        then set_icon_type c BATTERY_ICON_GPM
        else c
    | None => c
    end in
  match icon_type c1 with
  | UNKNOWN_ICON =>
      if HAS_STANDARD_ICON_TYPE files then set_icon_type c1 BATTERY_ICON_STANDARD
      else if HAS_NOTIFICATION_ICON_TYPE files then set_icon_type c1 BATTERY_ICON_NOTIFICATION
      else if HAS_GPM_ICON_TYPE files then set_icon_type c1 BATTERY_ICON_GPM
      else c1
  | _ => c1
  end.

(** [get_options] from the end of the [getopt_long] loop on: [c] is the
    configuration as the loop left it, [icon_type_string] the argument of
    [-i].  The result is the return value and the final configuration. *)
Definition get_options (files : icon_files) (icon_type_string : option string)
    (c : configuration) : gint * configuration :=
  if display_version c then (0, c)
  else if list_icon_types c then (0, c)
  else
    let c := select_icon_type files icon_type_string c in
    let c :=
      if update_interval c <=? 0
      then set_update_interval c DEFAULT_UPDATE_INTERVAL else c in
    let c :=
      if (low_level c <? 0) || (low_level c >? 100)
      then set_levels c DEFAULT_LOW_LEVEL (critical_level c) else c in
    let c :=
      if (critical_level c <? 0) || (critical_level c >? 100)
      then set_levels c (low_level c) DEFAULT_CRITICAL_LEVEL else c in
    let c :=
      if critical_level c >? low_level c
      then set_levels c DEFAULT_LOW_LEVEL DEFAULT_CRITICAL_LEVEL else c in
    (1, c).

(** ** Formatted output *)

Local Open Scope string_scope.
Local Open Scope Z_scope.

Inductive fmt_arg :=
| ArgInt (z : Z)
| ArgStr (s : string).

Definition decimal (z : Z) : string := NilZero.string_of_int (Z.to_int z).

(** [sprintf] for the directives the program uses: [%d], [%i], [%s], [%%]. *)
Fixpoint g_sprintf (fmt : string) (args : list fmt_arg) : string :=
  match fmt with
  | EmptyString => EmptyString
  | String "%" (String c rest) =>
      if Ascii.eqb c "%" then String "%" (g_sprintf rest args)
      else
        match args with
        | ArgInt z :: args' =>
            if Ascii.eqb c "d" || Ascii.eqb c "i"
            then decimal z ++ g_sprintf rest args'
            else g_sprintf rest args'
        | ArgStr s :: args' =>
            if Ascii.eqb c "s"
            then s ++ g_sprintf rest args'
            else g_sprintf rest args'
        | [] => g_sprintf rest args
        end
  | String c rest => String c (g_sprintf rest args)
  end.

Definition STR_LTH : nat := 256.

(** [g_strlcpy], [g_strlcat] and [g_snprintf] into a buffer of [STR_LTH]
    bytes keep at most [STR_LTH - 1] characters. *)
Definition strl (s : string) : string := substring 0 (STR_LTH - 1) s.

Definition g_snprintf (fmt : string) (args : list fmt_arg) : string :=
  strl (g_sprintf fmt args).

Definition g_strlcat (dst src : string) : string := strl (dst ++ src).

(** [dngettext] without a translation catalogue: the English plural rule. *)
Definition g_dngettext (singular plural : string) (n : Z) : string :=
  if n =? 1 then singular else plural.

Definition get_tooltip_string (battery : string) (time : option string) : string :=
  let tooltip_string := strl battery in
  match time with
  | Some t => g_strlcat (g_strlcat tooltip_string (String "010" EmptyString)) t
  | None => tooltip_string
  end.

Definition get_battery_string (state : battery_state) (percentage : gint) : string :=
  match state with
  | MISSING => strl "Battery is missing!"
  | UNKNOWN => strl "Battery status is unknown!"
  | CHARGED => strl "Battery is charged!"
  | DISCHARGING =>
      g_snprintf "Battery is discharging (%i%% remaining)" [ArgInt percentage]
  | NOTCHARGING =>
      g_snprintf "Battery is not charging (%i%% remaining)" [ArgInt percentage]
  | LOW_LEVEL =>
      g_snprintf "Battery level is low! (%i%% remaining)" [ArgInt percentage]
  | CRITICAL_LEVEL =>
      g_snprintf "Battery level is critical! (%i%% remaining)" [ArgInt percentage]
  | CHARGING =>
      g_snprintf "Battery is charging (%i%%)" [ArgInt percentage]
  end.

(** [get_time_string]: [None] is the [NULL] result. *)
Definition get_time_string (minutes : gint) : option string :=
  if minutes <? 0 then None
  else
    let hours := Z.quot minutes 60 in
    let minutes := Z.rem minutes 60 in
    if hours >? 0 then
      let minutes_string :=
        g_sprintf (g_dngettext "%d minute" "%d minutes" minutes) [ArgInt minutes] in
      Some (g_sprintf (g_dngettext "%d hour, %s remaining" "%d hours, %s remaining" hours)
                      [ArgInt hours; ArgStr minutes_string])
    else
      Some (g_sprintf (g_dngettext "%d minute remaining" "%d minutes remaining" minutes)
                      [ArgInt minutes]).

Definition get_icon_name (c : configuration) (state : battery_state)
    (percentage : gint) : string :=
  let icon_name :=
    match icon_type c with
    | BATTERY_ICON_NOTIFICATION => strl "notification-battery"
    | BATTERY_ICON_GPM => strl "gpm-primary"
    | _ => strl "battery"
    end in
  let is_charging := battery_state_eqb state CHARGING in
  let is_charged := battery_state_eqb state CHARGED in
  if battery_state_eqb state MISSING || battery_state_eqb state UNKNOWN then
    match icon_type c with
    | BATTERY_ICON_NOTIFICATION => g_strlcat icon_name "-empty"
    | _ => g_strlcat icon_name "-missing"
    end
  else
    match icon_type c with
    | BATTERY_ICON_NOTIFICATION =>
        let n :=
          if percentage <=? 20 then g_strlcat icon_name "-020"
          else if percentage <=? 40 then g_strlcat icon_name "-040"
          else if percentage <=? 60 then g_strlcat icon_name "-060"
          else if percentage <=? 80 then g_strlcat icon_name "-080"
          else g_strlcat icon_name "-100" in
        if is_charging then g_strlcat n "-plugged"
        else if is_charged then g_strlcat n "-plugged"
        else n
    | BATTERY_ICON_GPM =>
        let n :=
          if is_charged then g_strlcat icon_name "-charged"
          else if percentage <=? 20 then g_strlcat icon_name "-020"
          else if percentage <=? 40 then g_strlcat icon_name "-040"
          else if percentage <=? 60 then g_strlcat icon_name "-060"
          else if percentage <=? 80 then g_strlcat icon_name "-080"
          else g_strlcat icon_name "-100" in
        if is_charging then g_strlcat n "-charging" else n
    | _ =>
        let n :=
          if percentage <=? 20 then g_strlcat icon_name "-caution"
          else if percentage <=? 40 then g_strlcat icon_name "-low"
          else if percentage <=? 80 then g_strlcat icon_name "-good"
          else g_strlcat icon_name "-full" in
        if is_charging then g_strlcat n "-charging"
        else if is_charged then g_strlcat n "-charged"
        else n
    end.

(** ** The poll routine *)

Definition wrap_gint (z : Z) : gint := (z + 2 ^ 31) mod 2 ^ 32 - 2 ^ 31.

Inductive notify_timeout := NOTIFY_EXPIRES_DEFAULT | NOTIFY_EXPIRES_NEVER.

Inductive NotifyUrgency :=
| NOTIFY_URGENCY_LOW
| NOTIFY_URGENCY_NORMAL
| NOTIFY_URGENCY_CRITICAL.

(** The static [NotifyNotification *] variables of the poll routine. *)
Inductive notification_handle :=
| notification
| spawn_notification_low
| spawn_notification_critical.

Inductive syslog_priority := LOG_CRIT | LOG_ERR | LOG_NOTICE.

(** What a poll asks of its collaborators, in program order. *)
Inductive event :=
| NOTIFY_MESSAGE (handle : notification_handle) (summary : string)
    (body : option string) (timeout : notify_timeout) (urgency : NotifyUrgency)
| set_tooltip_text (tip_text : string)
| set_tray_icon (name : string)
| syslog (priority : syslog_priority) (message : string)
| g_usleep (seconds : Z)
| g_spawn_command_line_async (command_line : string)
| g_printerr (message : string).

(** [notify_message], the function behind [NOTIFY_MESSAGE]: a call shows
    its notification unless notifications are hidden. *)
Definition notify_message (c : configuration) (e : event) : option event :=
  match e with
  | NOTIFY_MESSAGE _ _ _ _ _ => if hide_notification c then None else Some e
  | _ => None
  end.

(** The function-static variables of [update_tray_icon_status] and the
    estimation memo. *)
Record tray_state := {
  old_battery_status : option battery_state;
  battery_low : gboolean;
  battery_critical : gboolean;
  spawn_command_low : gboolean;
  spawn_command_critical : gboolean;
  memo : estimation
}.

(** [old_battery_status] starts at -1, no state of the enumeration. *)
Definition tray_state_init (now : clock) : tray_state :=
  {| old_battery_status := None;
     battery_low := false;
     battery_critical := false;
     spawn_command_low := false;
     spawn_command_critical := false;
     memo := estimation_init now |}.

Definition status_is (o : option battery_state) (s : battery_state) : bool :=
  match o with
  | Some s' => battery_state_eqb s' s
  | None => false
  end.

(** One poll's inputs: the sample [apm_read] fills in, the reading of the
    clock (one per poll) and the answer of [g_spawn_command_line_async]
    ([None] for success, the error message otherwise). *)
Record poll := {
  apm_read : apm_info;
  poll_clock : clock;
  spawn_error : string -> option string
}.

Section Poll.

Variable g_timer_elapsed : GTimer -> clock -> gdouble.
Variable c : configuration.

(** [get_battery_charge] with a non-null [time], as both callers pass:
    the percentage, the time and the memo; [None] where the estimator is
    undefined.  The sum [battery_time + 30] wraps around as the machine
    addition does. *)
Definition get_battery_charge (now : clock) (info : apm_info)
    (remaining : gboolean) (e : estimation) : option (gint * gint * estimation) :=
  let percentage := battery_percentage info in
  if negb remaining then
    match get_battery_time_estimation g_timer_elapsed now
            (Double.of_int (battery_percentage info)) (Double.of_int 100) e with
    | Some (time, e') => Some (percentage, time, e')
    | None => None
    end
  else if negb (using_minutes info =? 0) then
    Some (percentage, battery_time info, e)
  else
    Some (percentage, Z.quot (wrap_gint (battery_time info + 30)) 60, e).

(** The macro [HANDLE_BATTERY_STATUS (PCT, TIM, EXP, URG)]. *)
Definition HANDLE_BATTERY_STATUS (battery_status : battery_state)
    (st : tray_state) (PCT TIM : gint) (EXP : notify_timeout)
    (URG : NotifyUrgency) : tray_state * list event :=
  let percentage := PCT in
  let battery_string := get_battery_string battery_status percentage in
  let time_string := get_time_string TIM in
  let shown :=
    [set_tooltip_text (get_tooltip_string battery_string time_string);
     set_tray_icon (get_icon_name c battery_status percentage)] in
  if negb (status_is (old_battery_status st) battery_status) then
    ({| old_battery_status := Some battery_status;
        battery_low := battery_low st;
        battery_critical := battery_critical st;
        spawn_command_low := spawn_command_low st;
        spawn_command_critical := spawn_command_critical st;
        memo := memo st |},
     NOTIFY_MESSAGE notification battery_string time_string EXP URG :: shown)
  else (st, shown).

Definition still_discharging (info : apm_info) : bool :=
  let battery_status := get_battery_status info in
  negb (negb (battery_state_eqb battery_status DISCHARGING)
        && negb (battery_state_eqb battery_status NOTCHARGING)).

(** The block guarded by [spawn_command_low == TRUE], entered with the
    flag already cleared: its events, and whether it left the function by
    [return]. *)
Definition spawn_low (p : poll) : list event * bool :=
  match command_low_level c with
  | None => ([], false)
  | Some cmd =>
      let announce :=
        [syslog LOG_CRIT
           (g_sprintf "Spawning low battery level command in 5 seconds: %s" [ArgStr cmd]);
         g_usleep 5] in
      if negb (still_discharging (apm_read p)) then
        ((announce ++
          [syslog LOG_NOTICE "Skipping low battery level command, no longer discharging"])%list,
         true)
      else
        match spawn_error p cmd with
        | None => ((announce ++ [g_spawn_command_line_async cmd])%list, false)
        | Some message =>
            let line :=
              g_sprintf ("Cannot spawn low battery level command: %s" ++ String "010" "")
                        [ArgStr message] in
            ((announce ++
              [g_spawn_command_line_async cmd;
               syslog LOG_CRIT line;
               g_printerr line;
               NOTIFY_MESSAGE spawn_notification_low
                 "Cannot spawn low battery level command!" (Some cmd)
                 NOTIFY_EXPIRES_NEVER NOTIFY_URGENCY_CRITICAL])%list,
             false)
        end
  end.

Definition spawn_critical (p : poll) : list event * bool :=
  match command_critical_level c with
  | None => ([], false)
  | Some cmd =>
      let announce :=
        [syslog LOG_CRIT
           (g_sprintf "Spawning critical battery level command in 30 seconds: %s" [ArgStr cmd]);
         g_usleep 30] in
      if negb (still_discharging (apm_read p)) then
        ((announce ++
          [syslog LOG_NOTICE "Skipping critical battery level command, no longer discharging"])%list,
         true)
      else
        match spawn_error p cmd with
        | None => ((announce ++ [g_spawn_command_line_async cmd])%list, false)
        | Some message =>
            let line :=
              g_sprintf ("Cannot spawn critical battery level command: %s" ++ String "010" "")
                        [ArgStr message] in
            ((announce ++
              [g_spawn_command_line_async cmd;
               syslog LOG_CRIT line;
               g_printerr line;
               NOTIFY_MESSAGE spawn_notification_critical
                 "Cannot spawn critical battery level command!" (Some cmd)
                 NOTIFY_EXPIRES_NEVER NOTIFY_URGENCY_CRITICAL])%list,
             false)
        end
  end.

(** Entering the [DISCHARGING]/[NOTCHARGING] case: a new session
    announces itself and clears the latches. *)
Definition enter_discharging (battery_string : string)
    (time_string : option string) (st : tray_state) : tray_state * list event :=
  if negb (status_is (old_battery_status st) DISCHARGING) then
    ({| old_battery_status := Some DISCHARGING;
        battery_low := false;
        battery_critical := false;
        spawn_command_low := false;
        spawn_command_critical := false;
        memo := memo st |},
     [NOTIFY_MESSAGE notification battery_string time_string
        NOTIFY_EXPIRES_DEFAULT NOTIFY_URGENCY_NORMAL])
  else (st, []).

(** The low threshold test; the string is the current [battery_string]. *)
Definition check_low_level (percentage : gint) (time_string : option string)
    (battery_string : string) (st : tray_state)
    : tray_state * string * list event :=
  if negb (battery_low st) && (percentage <=? low_level c) then
    let battery_string := get_battery_string LOW_LEVEL percentage in
    ({| old_battery_status := old_battery_status st;
        battery_low := true;
        battery_critical := battery_critical st;
        spawn_command_low := true;
        spawn_command_critical := spawn_command_critical st;
        memo := memo st |},
     battery_string,
     [NOTIFY_MESSAGE notification battery_string time_string
        NOTIFY_EXPIRES_NEVER NOTIFY_URGENCY_NORMAL])
  else (st, battery_string, []).

Definition check_critical_level (percentage : gint) (time_string : option string)
    (battery_string : string) (st : tray_state)
    : tray_state * string * list event :=
  if negb (battery_critical st) && (percentage <=? critical_level c) then
    let battery_string := get_battery_string CRITICAL_LEVEL percentage in
    ({| old_battery_status := old_battery_status st;
        battery_low := battery_low st;
        battery_critical := true;
        spawn_command_low := spawn_command_low st;
        spawn_command_critical := true;
        memo := memo st |},
     battery_string,
     [NOTIFY_MESSAGE notification battery_string time_string
        NOTIFY_EXPIRES_NEVER NOTIFY_URGENCY_CRITICAL])
  else (st, battery_string, []).

(** The two command blocks at the end of the case.  A [return] out of
    the first one skips the second and leaves its flag as it is. *)
Definition spawn_commands (p : poll) (st : tray_state) : tray_state * list event :=
  let '(st1, ev1, returned) :=
    if spawn_command_low st then
      let '(ev, returned) := spawn_low p in
      ({| old_battery_status := old_battery_status st;
          battery_low := battery_low st;
          battery_critical := battery_critical st;
          spawn_command_low := false;
          spawn_command_critical := spawn_command_critical st;
          memo := memo st |}, ev, returned)
    else (st, [], false) in
  if returned then (st1, ev1)
  else if spawn_command_critical st1 then
    ({| old_battery_status := old_battery_status st1;
        battery_low := battery_low st1;
        battery_critical := battery_critical st1;
        spawn_command_low := spawn_command_low st1;
        spawn_command_critical := false;
        memo := memo st1 |},
     (ev1 ++ fst (spawn_critical p))%list)
  else (st1, ev1).

Definition set_memo (st : tray_state) (e : estimation) : tray_state :=
  {| old_battery_status := old_battery_status st;
     battery_low := battery_low st;
     battery_critical := battery_critical st;
     spawn_command_low := spawn_command_low st;
     spawn_command_critical := spawn_command_critical st;
     memo := e |}.

(** The case [DISCHARGING]/[NOTCHARGING] of the switch. *)
Definition discharging_case (battery_status : battery_state) (p : poll)
    (st : tray_state) : option (tray_state * list event) :=
  match get_battery_charge (poll_clock p) (apm_read p) true (memo st) with
  | None => None
  | Some (percentage, time, e) =>
      let st := set_memo st e in
      let battery_string := get_battery_string battery_status percentage in
      let time_string := get_time_string time in
      let '(st, ev0) := enter_discharging battery_string time_string st in
      let '(st, battery_string, ev1) :=
        check_low_level percentage time_string battery_string st in
      let '(st, battery_string, ev2) :=
        check_critical_level percentage time_string battery_string st in
      let shown :=
        [set_tooltip_text (get_tooltip_string battery_string time_string);
         set_tray_icon (get_icon_name c battery_status percentage)] in
      let '(st, ev3) := spawn_commands p st in
      Some (st, (ev0 ++ ev1 ++ ev2 ++ shown ++ ev3)%list)
  end.

(** The case [CHARGING]. *)
Definition charging_case (p : poll) (st : tray_state)
    : option (tray_state * list event) :=
  let st :=
    if negb (status_is (old_battery_status st) CHARGING)
    then set_memo st (reset_battery_time_estimation (poll_clock p) (memo st))
    else st in
  match get_battery_charge (poll_clock p) (apm_read p) false (memo st) with
  | None => None
  | Some (percentage, time, e) =>
      Some (HANDLE_BATTERY_STATUS CHARGING (set_memo st e) percentage time
              NOTIFY_EXPIRES_DEFAULT NOTIFY_URGENCY_NORMAL)
  end.

(** The [switch (battery_status)] of [update_tray_icon_status]. *)
Definition switch_battery_status (battery_status : battery_state) (p : poll)
    (st : tray_state) : option (tray_state * list event) :=
  match battery_status with
  | MISSING =>
      Some (HANDLE_BATTERY_STATUS MISSING st 0 (-1)
              NOTIFY_EXPIRES_NEVER NOTIFY_URGENCY_NORMAL)
  | UNKNOWN =>
      Some (HANDLE_BATTERY_STATUS UNKNOWN st 0 (-1)
              NOTIFY_EXPIRES_DEFAULT NOTIFY_URGENCY_NORMAL)
  | CHARGED =>
      Some (HANDLE_BATTERY_STATUS CHARGED st 100 (-1)
              NOTIFY_EXPIRES_DEFAULT NOTIFY_URGENCY_NORMAL)
  | CHARGING => charging_case p st
  | DISCHARGING | NOTCHARGING => discharging_case battery_status p st
  | LOW_LEVEL | CRITICAL_LEVEL => Some (st, [])
  end.

Definition update_tray_icon_status (p : poll) (st : tray_state)
    : option (tray_state * list event) :=
  switch_battery_status (get_battery_status (apm_read p)) p st.

(** A run of polls whose classification is given with each poll; the
    events are kept per poll. *)
Fixpoint run_switch (ps : list (battery_state * poll)) (st : tray_state)
    : option (tray_state * list (list event)) :=
  match ps with
  | [] => Some (st, [])
  | (battery_status, p) :: ps' =>
      match switch_battery_status battery_status p st with
      | None => None
      | Some (st', ev) =>
          match run_switch ps' st' with
          | None => None
          | Some (st'', evs) => Some (st'', ev :: evs)
          end
      end
  end.

(** The timer callback [update_tray_icon], poll after poll. *)
Definition run (ps : list poll) (st : tray_state)
    : option (tray_state * list (list event)) :=
  run_switch (map (fun p => (get_battery_status (apm_read p), p)) ps) st.

End Poll.

(** ** Observations on the events of a poll *)

Definition is_low_notification (e : event) : bool :=
  match e with
  | NOTIFY_MESSAGE notification summary _ _ _ =>
      prefix "Battery level is low!" summary
  | _ => false
  end.

Definition is_critical_notification (e : event) : bool :=
  match e with
  | NOTIFY_MESSAGE notification summary _ _ _ =>
      prefix "Battery level is critical!" summary
  | _ => false
  end.

Definition is_low_command_request (e : event) : bool :=
  match e with
  | syslog LOG_CRIT message =>
      prefix "Spawning low battery level command" message
  | _ => false
  end.

Definition is_critical_command_request (e : event) : bool :=
  match e with
  | syslog LOG_CRIT message =>
      prefix "Spawning critical battery level command" message
  | _ => false
  end.

Definition count_events (f : event -> bool) (evs : list (list event)) : nat :=
  List.length (List.filter f (List.concat evs)).

(** ** The icon files *)

Definition ICON_PATH_MAX_LEN : nat := 256.

(** [strstr haystack needle]: the offset of the first occurrence, [None]
    for the null result. *)
Fixpoint strstr (haystack needle : string) : option nat :=
  if prefix needle haystack then Some 0%nat
  else
    match haystack with
    | EmptyString => None
    | String _ rest =>
        match strstr rest needle with
        | Some n => Some (S n)
        | None => None
        end
    end.

(** [get_icon_path]: [exe] is what [readlink] finds behind
    [/proc/self/exe] ([None] when it fails); the result is [None] when one
    of the two assertions stops the program. *)
Definition get_icon_path (exe : option string) (name : string) : option string :=
  match exe with
  | None => None
  | Some target =>
      let path := substring 0 (ICON_PATH_MAX_LEN - 1) target in
      let link_length := String.length path in
      if (0 <? link_length)%nat then
        let '(path, prefix_offset) :=
          match strstr path "/bin/" with
          | Some offset => (path, offset)
          | None => ("/usr", 4%nat)
          end in
        if (prefix_offset + 25 + String.length name + 4 + 1 <? ICON_PATH_MAX_LEN)%nat
        then Some (substring 0 prefix_offset path
                   ++ g_sprintf "/share/pixmaps/cbatticon/%s.png" [ArgStr name])
        else None
      else None
  end.

(** ** The icon cache *)

Module Icons.

(** A pixbuf, known by the file it was read from. *)
Record GdkPixbuf := { pixbuf_file : string }.

(** The hash table [icons_cache], from icon names to pixbufs; the null
    table is the empty one. *)
Definition icons_cache := list (string * GdkPixbuf).

Fixpoint g_hash_table_lookup (cache : icons_cache) (key : string)
    : option GdkPixbuf :=
  match cache with
  | [] => None
  | (k, value) :: rest =>
      if String.eqb k key then Some value else g_hash_table_lookup rest key
  end.

Definition g_hash_table_insert (cache : icons_cache) (key : string)
    (value : GdkPixbuf) : icons_cache :=
  (key, value)
  :: List.filter (fun kv => negb (String.eqb (fst kv) key)) cache.

Inductive icon_event :=
| gdk_pixbuf_new_from_file (filename : string)
| gtk_image_set_from_pixbuf (pixbuf : GdkPixbuf).

(** [set_tray_icon]: [readable] tells whether a file loads as an image.
    The result is the new [tray_icon->name], the cache and what was done;
    [None] when an assertion stops the program. *)
Definition set_tray_icon (exe : option string) (readable : string -> bool)
    (cache : icons_cache) (name : string)
    : option (string * icons_cache * list icon_event) :=
  match g_hash_table_lookup cache name with
  | Some value => Some (name, cache, [gtk_image_set_from_pixbuf value])
  | None =>
      match get_icon_path exe name with
      | None => None
      | Some filename =>
          if readable filename then
            let value := {| pixbuf_file := filename |} in
            Some (name, g_hash_table_insert cache name value,
                  [gdk_pixbuf_new_from_file filename;
                   gtk_image_set_from_pixbuf value])
          else None
      end
  end.

(** The icons of successive polls. *)
Fixpoint set_tray_icons (exe : option string) (readable : string -> bool)
    (cache : icons_cache) (names : list string)
    : option (icons_cache * list icon_event) :=
  match names with
  | [] => Some (cache, [])
  | name :: names' =>
      match set_tray_icon exe readable cache name with
      | None => None
      | Some (_, cache', ev) =>
          match set_tray_icons exe readable cache' names' with
          | None => None
          | Some (cache'', evs) => Some (cache'', (ev ++ evs)%list)
          end
      end
  end.

Fixpoint files_read (evs : list icon_event) : list string :=
  match evs with
  | [] => []
  | gdk_pixbuf_new_from_file filename :: evs' => filename :: files_read evs'
  | gtk_image_set_from_pixbuf _ :: evs' => files_read evs'
  end.

End Icons.

(** * Vocabulary of the properties *)

(** ** The classifier *)

(** Bit 3 of the flags: the charging flag. *)
Definition charging_flag (info : apm_info) : bool :=
  Z.testbit (battery_flags info) 3.

Definition charging_condition (info : apm_info) : Prop :=
  battery_status info = 3 \/ charging_flag info = true.

(** ** The time string *)

Definition plural (n : Z) (one many : string) : string :=
  if n =? 1 then one else many.

(** ** The estimator *)

(** The percentages libapm reports: -1 (unknown) and 0 to 100. *)
Definition percentages : list Z :=
  List.map (fun n => Z.of_nat n - 1) (List.seq 0 102).

Definition is_finite (x : gdouble) : bool :=
  match x with S754_finite _ _ _ => true | _ => false end.

Definition is_finite_or_zero (x : gdouble) : bool :=
  match x with S754_finite _ _ _ | S754_zero _ => true | _ => false end.

(** What the estimator needs of two percentages [a] and [b]: their
    difference is a finite number or a zero; when they differ they compare
    different and the difference is not zero; from 0 on, [b] is not the
    unset value. *)
Definition percentage_pair_ok (a b : Z) : bool :=
  let d := Double.sub (Double.of_int a) (Double.of_int b) in
  is_finite_or_zero d
  && ((a =? b) || (is_finite d && Double.neqb (Double.of_int a) (Double.of_int b)))
  && ((b <? 0) || negb (Double.eqb (Double.of_int b) minus_one)).

(** ** The threshold tracker *)

Definition cnt (f : event -> bool) (ev : list event) : nat :=
  List.length (List.filter f ev).

Definition b2n (b : bool) : nat := if b then 1%nat else 0%nat.

Definition is_some {A} (o : option A) : bool :=
  match o with Some _ => true | None => false end.

(** The latches as the threshold tests of a poll find them. *)
Definition new_session (st : tray_state) : bool :=
  negb (status_is (old_battery_status st) DISCHARGING).

Definition low_latch (st : tray_state) : bool :=
  if new_session st then false else battery_low st.

Definition critical_latch (st : tray_state) : bool :=
  if new_session st then false else battery_critical st.

Definition low_pending (st : tray_state) : bool :=
  if new_session st then false else spawn_command_low st.

Definition critical_pending (st : tray_state) : bool :=
  if new_session st then false else spawn_command_critical st.

Definition crosses_low (c : configuration) (st : tray_state) (pct : gint) : bool :=
  negb (low_latch st) && (pct <=? low_level c).

Definition crosses_critical (c : configuration) (st : tray_state) (pct : gint) : bool :=
  negb (critical_latch st) && (pct <=? critical_level c).

Definition is_discharging (s : battery_state) : Prop :=
  s = DISCHARGING \/ s = NOTCHARGING.

(** A run of polls all classified DISCHARGING or NOTCHARGING. *)
Definition discharging_session (ps : list (battery_state * poll)) : Prop :=
  Forall (fun sp => is_discharging (fst sp)) ps.

(** ** Icon sets *)

Definition icon_type_of_name (s : string) : option icon_type_t :=
  if String.eqb s "standard" then Some BATTERY_ICON_STANDARD
  else if String.eqb s "notification" then Some BATTERY_ICON_NOTIFICATION
  else if String.eqb s "gpm" then Some BATTERY_ICON_GPM
  else None.

Definition installed (files : icon_files) (t : icon_type_t) : bool :=
  match t with
  | UNKNOWN_ICON => false
  | BATTERY_ICON_STANDARD => HAS_STANDARD_ICON_TYPE files
  | BATTERY_ICON_NOTIFICATION => HAS_NOTIFICATION_ICON_TYPE files
  | BATTERY_ICON_GPM => HAS_GPM_ICON_TYPE files
  end.

(** ** More vocabulary *)

Definition is_nan (x : gdouble) : bool :=
  match x with S754_nan => true | _ => false end.

Definition is_notification (e : event) : bool :=
  match e with NOTIFY_MESSAGE _ _ _ _ _ => true | _ => false end.

Definition is_tooltip (e : event) : bool :=
  match e with set_tooltip_text _ => true | _ => false end.

Definition is_icon (e : event) : bool :=
  match e with set_tray_icon _ => true | _ => false end.

Definition is_skip (e : event) : bool :=
  match e with syslog LOG_NOTICE _ => true | _ => false end.

Definition is_spawn (e : event) : bool :=
  match e with g_spawn_command_line_async _ => true | _ => false end.

(** The states in which the battery is not being discharged. *)
Definition is_interlude (s : battery_state) : Prop :=
  s = MISSING \/ s = UNKNOWN \/ s = CHARGED \/ s = CHARGING.

(** ** Sample inputs *)

Definition sample_configuration : configuration :=
  {| display_version := false;
     debug_output := false;
     update_interval := 5;
     icon_type := BATTERY_ICON_STANDARD;
     low_level := 20;
     critical_level := 5;
     command_low_level := Some "notify-send low";
     command_critical_level := Some "poweroff";
     command_left_click := None;
     hide_notification := false;
     list_icon_types := false |}.

Definition sample_poll (code percentage : gint) : poll :=
  {| apm_read :=
       {| battery_status := code;
          battery_flags := 0;
          battery_percentage := percentage;
          battery_time := 5400;
          using_minutes := 0 |};
     poll_clock := 0;
     spawn_error := fun _ => None |}.

Local Close Scope string_scope.

(** * Properties *)

(** ** The classifier *)

Lemma flag_test_bit3 (f : Z) :
  negb (Z.land f (Z.shiftl 1 3) =? 0) = Z.testbit f 3.
Proof.
  change (Z.shiftl 1 3) with (2 ^ 3).
  destruct (Z.testbit f 3) eqn:Hb.
  - apply negb_true_iff, Z.eqb_neq. intros H0.
    assert (Hl : Z.testbit (Z.land f (2 ^ 3)) 3 = true).
    { rewrite Z.land_spec, Hb, Z.pow2_bits_true; [reflexivity | lia]. }
    rewrite H0, Z.bits_0 in Hl. discriminate.
  - apply negb_false_iff, Z.eqb_eq, Z.bits_inj'. intros n Hn.
    rewrite Z.land_spec, Z.bits_0, Z.pow2_bits_eqb by lia.
    destruct (Z.eqb_spec 3 n) as [<- | _].
    + now rewrite Hb.
    + apply andb_false_r.
Qed.

Ltac split_code :=
  repeat match goal with
         | |- context [match ?x with _ => _ end] => is_var x; destruct x
         | H : context [match ?x with _ => _ end] |- _ => is_var x; destruct x
         end.

Lemma get_battery_status_unflagged (info : apm_info) :
  charging_flag info = false ->
  get_battery_status info =
    match battery_status info with
    | 0 | 1 | 2 => DISCHARGING
    | 3 => if battery_percentage info =? 100 then CHARGED else CHARGING
    | 4 => MISSING
    | _ => UNKNOWN
    end.
Proof.
  intros Hf. unfold get_battery_status, charging_flag in *.
  now rewrite flag_test_bit3, Hf.
Qed.

Lemma get_battery_status_flagged (info : apm_info) :
  charging_flag info = true ->
  get_battery_status info =
    if battery_percentage info =? 100 then CHARGED else CHARGING.
Proof.
  intros Hf. unfold get_battery_status, charging_flag in *.
  now rewrite flag_test_bit3, Hf.
Qed.

(** C6: a sample whose raw status code is High (0), Low (1) or Critical (2)
    and whose charging flag (bit 3 of the flags) is clear is classified
    DISCHARGING, whatever its percentage. *)
Theorem level_codes_discharging (info : apm_info) :
  In (battery_status info) [0; 1; 2] ->
  charging_flag info = false ->
  get_battery_status info = DISCHARGING.
Proof.
  intros Hc Hf. rewrite (get_battery_status_unflagged info Hf).
  simpl in Hc. destruct Hc as [<- | [<- | [<- | []]]]; reflexivity.
Qed.

Lemma level_codes_discharging_witness :
  get_battery_status
    {| battery_status := 1; battery_flags := 4; battery_percentage := 100;
       battery_time := 90; using_minutes := 1 |} = DISCHARGING.
Proof.
  apply level_codes_discharging; [simpl; lia | reflexivity].
Defined.

(** C7: the classification is CHARGED exactly when the charging condition
    holds (raw code Charging, or charging flag set) and the percentage is
    100; it is CHARGING when the condition holds below 100; and a set flag
    decides the result whatever the raw code says. *)
Theorem charged_iff_charging_condition (info : apm_info) :
  (get_battery_status info = CHARGED <->
     charging_condition info /\ battery_percentage info = 100) /\
  (charging_condition info /\ battery_percentage info < 100 ->
     get_battery_status info = CHARGING) /\
  (charging_flag info = true ->
     get_battery_status info =
       if battery_percentage info =? 100 then CHARGED else CHARGING).
Proof.
  unfold charging_condition.
  destruct (charging_flag info) eqn:Hf.
  - rewrite (get_battery_status_flagged info Hf).
    destruct (Z.eqb_spec (battery_percentage info) 100) as [Hp | Hp].
    + split; [| split].
      * split; auto.
      * intros [_ Hlt]. lia.
      * reflexivity.
    + split; [| split].
      * split; [discriminate | tauto].
      * reflexivity.
      * reflexivity.
  - rewrite (get_battery_status_unflagged info Hf).
    split; [| split].
    + split.
      * intros H. destruct (Z.eqb_spec (battery_percentage info) 100) as [Hp | Hp];
          (split; [left |]);
          destruct (battery_status info) as [|q|q]; split_code;
          first [discriminate | reflexivity | assumption].
      * intros [[-> | Hx] ->]; [reflexivity | discriminate].
    + intros [[-> | Hx] Hlt]; [| discriminate].
      destruct (Z.eqb_spec (battery_percentage info) 100); [lia | reflexivity].
    + discriminate.
Qed.

(** C10: no sample is classified NOTCHARGING: the classifier only yields
    MISSING, UNKNOWN, CHARGED, CHARGING or DISCHARGING, although the switch
    of the poll routine treats NOTCHARGING like DISCHARGING. *)
Theorem notcharging_never_assigned (info : apm_info) :
  get_battery_status info <> NOTCHARGING /\
  In (get_battery_status info) [MISSING; UNKNOWN; CHARGED; CHARGING; DISCHARGING] /\
  (forall g c p st,
     switch_battery_status g c NOTCHARGING p st = discharging_case g c NOTCHARGING p st).
Proof.
  assert (Hin : In (get_battery_status info)
                  [MISSING; UNKNOWN; CHARGED; CHARGING; DISCHARGING]).
  { destruct (charging_flag info) eqn:Hf.
    - rewrite (get_battery_status_flagged info Hf).
      destruct (battery_percentage info =? 100); simpl; tauto.
    - rewrite (get_battery_status_unflagged info Hf).
      destruct (battery_percentage info =? 100);
        destruct (battery_status info) as [|q|q]; split_code; simpl; tauto. }
  split; [| split; [exact Hin | reflexivity]].
  intros H. rewrite H in Hin. simpl in Hin.
  repeat (destruct Hin as [Hin | Hin]; [discriminate |]). exact Hin.
Qed.

(** ** Option normalisation *)

Lemma select_icon_type_levels files its (c : configuration) :
  low_level (select_icon_type files its c) = low_level c /\
  critical_level (select_icon_type files its c) = critical_level c /\
  update_interval (select_icon_type files its c) = update_interval c.
Proof.
  unfold select_icon_type.
  destruct its as [s |]; simpl;
    repeat match goal with
           | |- context [if ?b then _ else _] => destruct b; simpl
           | |- context [match icon_type ?x with _ => _ end] =>
               destruct (icon_type x); simpl
           end; auto.
Qed.

Lemma get_options_early_return files its (c : configuration) :
  display_version c = true \/ list_icon_types c = true ->
  get_options files its c = (0, c).
Proof.
  unfold get_options. intros [H | H]; rewrite H; [reflexivity |].
  now destruct (display_version c).
Qed.

(** C8: when the options ask neither for the version nor for the icon
    list, [get_options] goes on (result 1, nothing fatal) and leaves
    critical_level <= low_level, both within 0..100; in-range levels given
    with critical_level above low_level both come back as the defaults,
    low_level = 20 and critical_level = 5. *)
Theorem inverted_levels_reset files its (c : configuration) :
  display_version c = false ->
  list_icon_types c = false ->
  let r := get_options files its c in
  fst r = 1 /\
  critical_level (snd r) <= low_level (snd r) /\
  0 <= critical_level (snd r) /\ low_level (snd r) <= 100 /\
  (0 <= low_level c <= 100 -> 0 <= critical_level c <= 100 ->
   critical_level c > low_level c ->
   low_level (snd r) = DEFAULT_LOW_LEVEL /\
   critical_level (snd r) = DEFAULT_CRITICAL_LEVEL /\
   DEFAULT_LOW_LEVEL = 20 /\ DEFAULT_CRITICAL_LEVEL = 5).
Proof.
  intros Hv Hl r. subst r. unfold get_options. rewrite Hv, Hl.
  destruct (select_icon_type_levels files its c) as (El & Ec & _).
  set (c0 := select_icon_type files its c) in *.
  unfold DEFAULT_LOW_LEVEL, DEFAULT_CRITICAL_LEVEL.
  destruct (update_interval c0 <=? 0); simpl; rewrite ?El, ?Ec;
    destruct (Z.ltb_spec (low_level c) 0); simpl;
    destruct (Z.gtb_spec (low_level c) 100); simpl; rewrite ?El, ?Ec;
    destruct (Z.ltb_spec (critical_level c) 0); simpl;
    destruct (Z.gtb_spec (critical_level c) 100); simpl; rewrite ?El, ?Ec;
    repeat match goal with
           | |- context [?a >? ?b] => destruct (Z.gtb_spec a b); simpl
           end; rewrite ?El, ?Ec; repeat split; intros; lia.
Qed.

Lemma inverted_levels_reset_witness :
  let r := get_options
             {| HAS_STANDARD_ICON_TYPE := true;
                HAS_NOTIFICATION_ICON_TYPE := false;
                HAS_GPM_ICON_TYPE := false |}
             None (set_levels configuration_init 5 20) in
  low_level (snd r) = 20 /\ critical_level (snd r) = 5.
Proof.
  pose proof (inverted_levels_reset
                {| HAS_STANDARD_ICON_TYPE := true;
                   HAS_NOTIFICATION_ICON_TYPE := false;
                   HAS_GPM_ICON_TYPE := false |}
                None (set_levels configuration_init 5 20)
                eq_refl eq_refl) as H.
  simpl in H. destruct H as (_ & _ & _ & _ & H).
  destruct H as (Hl & Hc & _ & _); [lia | lia | lia |].
  split; assumption.
Defined.

(** ** The time string *)

Lemma append_assoc (a b d : string) :
  ((a ++ b) ++ d = a ++ (b ++ d))%string.
Proof. induction a as [| x a IH]; simpl; [reflexivity | now rewrite IH]. Qed.

(** C9: a negative minutes value (the absent sentinel -1 among them) gives
    no string at all; a value of 60 or more gives the hours and the minutes
    of the remainder, a smaller one the minutes alone, each with its
    English plural. *)
Theorem time_string_absent_or_phrase (minutes : gint) :
  (minutes < 0 -> get_time_string minutes = None) /\
  (0 <= minutes ->
   let h := minutes / 60 in
   let m := minutes mod 60 in
   get_time_string minutes =
     Some (if 0 <? h
           then (decimal h ++ plural h " hour, " " hours, " ++
                 decimal m ++ plural m " minute" " minutes" ++ " remaining")%string
           else (decimal minutes ++ plural minutes " minute" " minutes" ++
                 " remaining")%string)).
Proof.
  split.
  - intros H. unfold get_time_string. apply Z.ltb_lt in H. now rewrite H.
  - intros H h m. unfold get_time_string.
    assert (Hn : (minutes <? 0) = false) by (apply Z.ltb_ge; lia).
    rewrite Hn.
    rewrite (Z.quot_div_nonneg minutes 60), (Z.rem_mod_nonneg minutes 60) by lia.
    fold h m. rewrite Z.gtb_ltb.
    destruct (Z.ltb_spec 0 h) as [Hh | Hh].
    + unfold g_dngettext, plural.
      destruct (h =? 1), (m =? 1); simpl; now rewrite append_assoc.
    + assert (Em : m = minutes).
      { subst m h. Z.div_mod_to_equations. lia. }
      rewrite Em. unfold g_dngettext, plural.
      destruct (minutes =? 1); reflexivity.
Qed.

(** ** The estimator *)

Lemma minus_one_value : minus_one = S754_finite true 4503599627370496 (-52).
Proof. vm_compute. reflexivity. Qed.

Lemma eqb_minus_one (x : gdouble) :
  Double.eqb x minus_one = true -> x = minus_one.
Proof.
  rewrite minus_one_value. unfold Double.eqb, SFeqb.
  destruct x as [s | s | | s m e].
  - simpl. discriminate.
  - simpl. destruct s; discriminate.
  - simpl. discriminate.
  - unfold SFcompare. destruct s; [| discriminate].
    destruct (e ?= -52) eqn:He; try discriminate.
    apply Z.compare_eq in He. subst e.
    destruct (Pos.compare_cont Eq m 4503599627370496) eqn:Hm;
      try discriminate.
    apply Pos.compare_eq in Hm. now subst m.
Qed.

Lemma eqb_minus_one_refl : Double.eqb minus_one minus_one = true.
Proof. vm_compute. reflexivity. Qed.

(** The two paths of the estimator, by the tests that select them. *)
Lemma estimation_unchanged g now (pct y : gdouble) (e : estimation) :
  Double.eqb pct (estimation_remaining_capacity e) = true ->
  get_battery_time_estimation g now pct y e = Some (estimation_time e, e).
Proof.
  intros H. unfold get_battery_time_estimation, Double.neqb.
  destruct (Double.eqb (estimation_remaining_capacity e) minus_one) eqn:Hs.
  - apply eqb_minus_one in Hs. destruct e as [cap t tm].
    cbn [estimation_remaining_capacity estimation_time estimation_timer] in *.
    subst cap. pose proof (eqb_minus_one _ H) as ->.
    fold (Double.eqb minus_one minus_one). now rewrite eqb_minus_one_refl.
  - fold (Double.eqb pct (estimation_remaining_capacity e)). now rewrite H.
Qed.

Lemma estimation_changed g now (pct y : gdouble) (e : estimation) :
  Double.eqb (estimation_remaining_capacity e) minus_one = false ->
  Double.neqb pct (estimation_remaining_capacity e) = true ->
  get_battery_time_estimation g now pct y e =
    match Double.to_int
            (Double.div
               (Double.div (Double.sub y pct)
                  (Double.div (Double.sub pct (estimation_remaining_capacity e))
                     (g (estimation_timer e) now)))
               (Double.of_int 60)) with
    | Some time =>
        Some (time,
              {| estimation_remaining_capacity := pct;
                 estimation_time := time;
                 estimation_timer := g_timer_start now |})
    | None => None
    end.
Proof.
  intros Hs Hn. unfold get_battery_time_estimation. now rewrite Hs, Hn.
Qed.

Lemma estimation_seed g now (pct y : gdouble) t tm :
  Double.eqb pct pct = true ->
  get_battery_time_estimation g now pct y
    {| estimation_remaining_capacity := minus_one;
       estimation_time := t;
       estimation_timer := tm |}
  = Some (t, {| estimation_remaining_capacity := pct;
                estimation_time := t;
                estimation_timer := tm |}).
Proof.
  intros H. unfold get_battery_time_estimation, Double.neqb.
  cbn [estimation_remaining_capacity estimation_time estimation_timer].
  rewrite eqb_minus_one_refl.
  cbn [estimation_remaining_capacity estimation_time estimation_timer].
  fold (Double.eqb pct pct). now rewrite H.
Qed.

(** C3: a call whose percentage equals the remembered capacity returns the
    memoized estimate and leaves the memo as it was; and from a reset memo
    two calls with percentage 80 both return -1, the first one only
    seeding the memo. *)
Theorem unchanged_percentage_keeps_estimate g now (pct y : gdouble)
    (e : estimation) :
  Double.eqb pct (estimation_remaining_capacity e) = true ->
  get_battery_time_estimation g now pct y e = Some (estimation_time e, e) /\
  (forall t0 t1 t2 y1 y2 e0,
     let seeded :=
       {| estimation_remaining_capacity := Double.of_int 80;
          estimation_time := -1;
          estimation_timer := g_timer_start t0 |} in
     get_battery_time_estimation g t1 (Double.of_int 80) y1
       (reset_battery_time_estimation t0 e0) = Some (-1, seeded) /\
     get_battery_time_estimation g t2 (Double.of_int 80) y2 seeded
       = Some (-1, seeded)).
Proof.
  intros H. split; [now apply estimation_unchanged |].
  intros t0 t1 t2 y1 y2 e0 seeded. split.
  - apply estimation_seed. vm_compute. reflexivity.
  - apply (estimation_unchanged g t2 (Double.of_int 80) y2 seeded).
    vm_compute. reflexivity.
Qed.

Lemma unchanged_percentage_keeps_estimate_witness :
  get_battery_time_estimation monotonic_elapsed 9000000 (Double.of_int 55)
    (Double.of_int 100)
    {| estimation_remaining_capacity := Double.of_int 55;
       estimation_time := 42;
       estimation_timer := g_timer_start 1000000 |}
  = Some (42,
          {| estimation_remaining_capacity := Double.of_int 55;
             estimation_time := 42;
             estimation_timer := g_timer_start 1000000 |}).
Proof.
  refine (proj1 (unchanged_percentage_keeps_estimate monotonic_elapsed 9000000
                   (Double.of_int 55) (Double.of_int 100)
                   {| estimation_remaining_capacity := Double.of_int 55;
                      estimation_time := 42;
                      estimation_timer := g_timer_start 1000000 |} _)).
  vm_compute. reflexivity.
Defined.

(** C1, as the code has it: from a reset memo a first call with percentage
    80 returns -1 and seeds the memo; a second call with percentage 70 and
    target 0, made when the timer reports 60 seconds, computes the rate
    (70 - 80) / 60 per second and 420 seconds to go, and stores and returns
    7 minutes, the seconds divided by 60 and truncated. *)
Theorem seed_then_estimate_seven_minutes g t0 t1 t2 (y1 : gdouble)
    (e0 : estimation) :
  g (g_timer_start t0) t2 = Double.of_int 60 ->
  let seeded :=
    {| estimation_remaining_capacity := Double.of_int 80;
       estimation_time := -1;
       estimation_timer := g_timer_start t0 |} in
  get_battery_time_estimation g t1 (Double.of_int 80) y1
    (reset_battery_time_estimation t0 e0) = Some (-1, seeded) /\
  Double.div (Double.sub (Double.of_int 0) (Double.of_int 70))
    (Double.div (Double.sub (Double.of_int 70) (Double.of_int 80))
       (Double.of_int 60)) = Double.of_int 420 /\
  get_battery_time_estimation g t2 (Double.of_int 70) (Double.of_int 0) seeded
    = Some (7,
            {| estimation_remaining_capacity := Double.of_int 70;
               estimation_time := 7;
               estimation_timer := g_timer_start t2 |}).
Proof.
  intros Hg seeded. split; [| split].
  - apply estimation_seed. vm_compute. reflexivity.
  - vm_compute. reflexivity.
  - rewrite estimation_changed by (vm_compute; reflexivity).
    subst seeded.
    cbn [estimation_remaining_capacity estimation_time estimation_timer].
    rewrite Hg. vm_compute. reflexivity.
Qed.

Lemma seed_then_estimate_seven_minutes_witness :
  get_battery_time_estimation monotonic_elapsed 60000000 (Double.of_int 70)
    (Double.of_int 0)
    {| estimation_remaining_capacity := Double.of_int 80;
       estimation_time := -1;
       estimation_timer := g_timer_start 0 |}
  = Some (7,
          {| estimation_remaining_capacity := Double.of_int 70;
             estimation_time := 7;
             estimation_timer := g_timer_start 60000000 |}).
Proof.
  refine (proj2 (proj2 (seed_then_estimate_seven_minutes monotonic_elapsed
                          0 5 60000000 (Double.of_int 0) (estimation_init 0) _))).
  vm_compute. reflexivity.
Defined.

(** Against C1 as stated: in its scenario, on the microsecond timer, the
    second call, 60 seconds after the reset, returns and stores 7 and not
    420. *)
Lemma estimate_420_counterexample :
  let seeded :=
    {| estimation_remaining_capacity := Double.of_int 80;
       estimation_time := -1;
       estimation_timer := g_timer_start 0 |} in
  get_battery_time_estimation monotonic_elapsed 0 (Double.of_int 80)
    (Double.of_int 0) (reset_battery_time_estimation 0 (estimation_init 0))
    = Some (-1, seeded) /\
  monotonic_elapsed (estimation_timer seeded) 60000000 = Double.of_int 60 /\
  exists r,
    get_battery_time_estimation monotonic_elapsed 60000000 (Double.of_int 70)
      (Double.of_int 0) seeded = Some r /\
    fst r = 7 /\ estimation_time (snd r) = 7 /\
    fst r <> 420 /\ estimation_time (snd r) <> 420.
Proof.
  cbv zeta. split; [vm_compute; reflexivity |].
  split; [vm_compute; reflexivity |].
  eexists. split; [vm_compute; reflexivity |].
  cbn [fst snd estimation_time]. repeat split; discriminate.
Qed.

(** *** A zero elapsed time *)

Lemma in_percentages (z : Z) : -1 <= z <= 100 -> In z percentages.
Proof.
  intros H. unfold percentages. apply in_map_iff.
  exists (Z.to_nat (z + 1)). split; [lia |].
  apply in_seq. lia.
Qed.

Lemma percentage_pairs_ok :
  forallb (fun a => forallb (percentage_pair_ok a) percentages) percentages = true.
Proof. vm_compute. reflexivity. Qed.

Lemma percentage_pair (a b : Z) :
  -1 <= a <= 100 -> -1 <= b <= 100 -> percentage_pair_ok a b = true.
Proof.
  intros Ha Hb. pose proof percentage_pairs_ok as H.
  rewrite forallb_forall in H. specialize (H a (in_percentages a Ha)).
  rewrite forallb_forall in H. exact (H b (in_percentages b Hb)).
Qed.

Lemma div_by_zero_infinite (d z : gdouble) :
  is_finite d = true -> Double.is_zero z = true ->
  exists s, Double.div d z = S754_infinity s.
Proof.
  destruct d as [| | | sd md ed]; try discriminate.
  destruct z as [sz | | |]; try discriminate.
  intros _ _. exists (xorb sd sz). reflexivity.
Qed.

Lemma div_by_infinity_zero (n : gdouble) (s : bool) :
  is_finite_or_zero n = true ->
  exists s', Double.div n (S754_infinity s) = S754_zero s'.
Proof.
  destruct n as [sn | | | sn mn en]; try discriminate; intros _.
  - exists (xorb sn s). reflexivity.
  - exists (xorb sn s). reflexivity.
Qed.

Lemma sixty_value : Double.of_int 60 = S754_finite false 8444249301319680 (-47).
Proof. vm_compute. reflexivity. Qed.

Lemma zero_minutes (s : bool) :
  Double.to_int (Double.div (S754_zero s) (Double.of_int 60)) = Some 0.
Proof. rewrite sixty_value. destruct s; reflexivity. Qed.

(** C2, as the code has it: the estimator has no guard.  For percentages
    as libapm reports them, a remembered capacity that is set and a target
    between 0 and 100, a call whose percentage differs from the remembered
    one while the timer reports zero divides by that zero: the rate is
    infinite, the seconds are zero, and the call returns and stores an
    estimate of 0 minutes, restarts the timer and does not fail. *)
Theorem zero_elapsed_gives_zero_minutes g now (p r y : Z) (e : estimation) :
  -1 <= p <= 100 -> 0 <= r <= 100 -> 0 <= y <= 100 ->
  p <> r ->
  estimation_remaining_capacity e = Double.of_int r ->
  Double.is_zero (g (estimation_timer e) now) = true ->
  get_battery_time_estimation g now (Double.of_int p) (Double.of_int y) e
  = Some (0,
          {| estimation_remaining_capacity := Double.of_int p;
             estimation_time := 0;
             estimation_timer := g_timer_start now |}).
Proof.
  intros Hp Hr Hy Hne Hcap Hz.
  pose proof (percentage_pair p r ltac:(lia) ltac:(lia)) as Hpr.
  pose proof (percentage_pair y p ltac:(lia) ltac:(lia)) as Hyp.
  unfold percentage_pair_ok in Hpr, Hyp.
  apply andb_true_iff in Hpr. destruct Hpr as [Hpr Hset].
  apply andb_true_iff in Hpr. destruct Hpr as [_ Hdiff].
  apply andb_true_iff in Hyp. destruct Hyp as [Hyp _].
  apply andb_true_iff in Hyp. destruct Hyp as [Hfz _].
  assert (Ep : (p =? r) = false) by (apply Z.eqb_neq; exact Hne).
  assert (Er : (r <? 0) = false) by (apply Z.ltb_ge; lia).
  rewrite Ep in Hdiff. rewrite Er in Hset.
  cbn [orb] in Hdiff, Hset.
  apply andb_true_iff in Hdiff. destruct Hdiff as [Hfin Hneq].
  apply negb_true_iff in Hset.
  rewrite estimation_changed by (rewrite Hcap; assumption).
  rewrite Hcap.
  destruct (div_by_zero_infinite _ _ Hfin Hz) as [s ->].
  destruct (div_by_infinity_zero _ s Hfz) as [s' ->].
  now rewrite zero_minutes.
Qed.

Lemma zero_elapsed_gives_zero_minutes_witness :
  get_battery_time_estimation monotonic_elapsed 1000 (Double.of_int 70)
    (Double.of_int 100)
    {| estimation_remaining_capacity := Double.of_int 60;
       estimation_time := 25;
       estimation_timer := g_timer_start 1000 |}
  = Some (0,
          {| estimation_remaining_capacity := Double.of_int 70;
             estimation_time := 0;
             estimation_timer := g_timer_start 1000 |}).
Proof.
  apply (zero_elapsed_gives_zero_minutes monotonic_elapsed 1000 70 60 100);
    try lia; vm_compute; reflexivity.
Defined.

(** Against C2 as stated: the memo remembers 60 percent and no estimate
    yet (-1); a call with 70 percent and target 100 at the very reading the
    timer was started at sees an elapsed time of zero, and yields 0
    minutes, not -1. *)
Lemma zero_elapsed_counterexample :
  let e :=
    {| estimation_remaining_capacity := Double.of_int 60;
       estimation_time := -1;
       estimation_timer := g_timer_start 1000 |} in
  Double.neqb (Double.of_int 70) (estimation_remaining_capacity e) = true /\
  monotonic_elapsed (estimation_timer e) 1000 = S754_zero false /\
  exists r,
    get_battery_time_estimation monotonic_elapsed 1000 (Double.of_int 70)
      (Double.of_int 100) e = Some r /\
    fst r = 0 /\ estimation_time (snd r) = 0 /\
    fst r <> -1 /\ estimation_time (snd r) <> -1.
Proof.
  cbv zeta. split; [vm_compute; reflexivity |].
  split; [vm_compute; reflexivity |].
  eexists. split; [vm_compute; reflexivity |].
  cbn [fst snd estimation_time]. repeat split; discriminate.
Qed.

(** ** The threshold tracker *)

Lemma cnt_cons f e (l : list event) : cnt f (e :: l) = (b2n (f e) + cnt f l)%nat.
Proof. unfold cnt, b2n. simpl. now destruct (f e). Qed.

Lemma cnt_app f (a b : list event) : cnt f (a ++ b) = (cnt f a + cnt f b)%nat.
Proof. unfold cnt. now rewrite filter_app, length_app. Qed.

Lemma count_events_cons f ev evs :
  count_events f (ev :: evs) = (cnt f ev + count_events f evs)%nat.
Proof. unfold count_events, cnt. simpl. now rewrite filter_app, length_app. Qed.

Lemma low_notification_of_state (s : battery_state) pct body t u :
  is_low_notification
    (NOTIFY_MESSAGE notification (get_battery_string s pct) body t u)
  = battery_state_eqb s LOW_LEVEL.
Proof. destruct s; reflexivity. Qed.

Lemma critical_notification_of_state (s : battery_state) pct body t u :
  is_critical_notification
    (NOTIFY_MESSAGE notification (get_battery_string s pct) body t u)
  = battery_state_eqb s CRITICAL_LEVEL.
Proof. destruct s; reflexivity. Qed.

Lemma spawn_low_events c p :
  cnt is_low_notification (fst (spawn_low c p)) = 0%nat /\
  cnt is_critical_notification (fst (spawn_low c p)) = 0%nat /\
  cnt is_low_command_request (fst (spawn_low c p))
    = b2n (is_some (command_low_level c)) /\
  cnt is_critical_command_request (fst (spawn_low c p)) = 0%nat /\
  snd (spawn_low c p)
    = is_some (command_low_level c) && negb (still_discharging (apm_read p)).
Proof.
  unfold spawn_low.
  destruct (command_low_level c) as [cmd |]; [| repeat split; reflexivity].
  destruct (still_discharging (apm_read p)); cbn [negb].
  - destruct (spawn_error p cmd); repeat split; reflexivity.
  - repeat split; reflexivity.
Qed.

Lemma spawn_critical_events c p :
  cnt is_low_notification (fst (spawn_critical c p)) = 0%nat /\
  cnt is_critical_notification (fst (spawn_critical c p)) = 0%nat /\
  cnt is_low_command_request (fst (spawn_critical c p)) = 0%nat /\
  cnt is_critical_command_request (fst (spawn_critical c p))
    = b2n (is_some (command_critical_level c)).
Proof.
  unfold spawn_critical.
  destruct (command_critical_level c) as [cmd |]; [| repeat split; reflexivity].
  destruct (still_discharging (apm_read p)); cbn [negb].
  - destruct (spawn_error p cmd); repeat split; reflexivity.
  - repeat split; reflexivity.
Qed.

Lemma get_battery_charge_remaining g now info e :
  exists time,
    get_battery_charge g now info true e = Some (battery_percentage info, time, e).
Proof.
  unfold get_battery_charge. cbn [negb].
  destruct (negb (using_minutes info =? 0)); eexists; reflexivity.
Qed.

Lemma set_memo_same st : set_memo st (memo st) = st.
Proof. now destruct st. Qed.

Lemma status_is_true o s : status_is o s = true -> o = Some s.
Proof.
  destruct o as [s' |]; [| discriminate].
  destruct s', s; simpl; intros H; try discriminate; reflexivity.
Qed.

Ltac count_poll_events :=
  rewrite ?cnt_app, ?cnt_cons;
  rewrite ?low_notification_of_state, ?critical_notification_of_state;
  cbn [cnt List.filter List.length is_low_notification is_critical_notification
       is_low_command_request is_critical_command_request battery_state_eqb
       b2n Nat.add].

Lemma discharging_case_spec g c s p st :
  is_discharging s ->
  let pct := battery_percentage (apm_read p) in
  let low_block := (low_pending st || crosses_low c st pct)
                   && is_some (command_low_level c) in
  exists st' ev,
    discharging_case g c s p st = Some (st', ev) /\
    old_battery_status st' = Some DISCHARGING /\
    spawn_command_low st' = false /\
    battery_low st' = low_latch st || crosses_low c st pct /\
    battery_critical st' = critical_latch st || crosses_critical c st pct /\
    cnt is_low_notification ev = b2n (crosses_low c st pct) /\
    cnt is_critical_notification ev = b2n (crosses_critical c st pct) /\
    cnt is_low_command_request ev = b2n low_block /\
    cnt is_critical_command_request ev
      = b2n ((critical_pending st || crosses_critical c st pct)
             && is_some (command_critical_level c)
             && negb (low_block && negb (still_discharging (apm_read p)))).
Proof.
  intros Hs pct low_block. unfold discharging_case.
  destruct (get_battery_charge_remaining g (poll_clock p) (apm_read p) (memo st))
    as [time ->].
  rewrite set_memo_same. fold pct.
  subst low_block.
  unfold crosses_low, crosses_critical, low_latch, critical_latch, low_pending,
    critical_pending, new_session.
  unfold enter_discharging, check_low_level, check_critical_level, spawn_commands.
  destruct (spawn_low_events c p) as (L1 & L2 & L3 & L4 & L5).
  destruct (spawn_critical_events c p) as (K1 & K2 & K3 & K4).
  destruct (spawn_low c p) as [evl retl].
  destruct (spawn_critical c p) as [evc retc].
  cbn [fst snd] in *.
  assert (Hns : forall body t u,
             is_low_notification
               (NOTIFY_MESSAGE notification (get_battery_string s pct) body t u)
             = false /\
             is_critical_notification
               (NOTIFY_MESSAGE notification (get_battery_string s pct) body t u)
             = false).
  { intros. rewrite low_notification_of_state, critical_notification_of_state.
    destruct Hs as [-> | ->]; split; reflexivity. }
  destruct (status_is (old_battery_status st) DISCHARGING) eqn:Hold;
  destruct (battery_low st) eqn:Hl, (battery_critical st) eqn:Hc,
     (spawn_command_low st) eqn:Hsl, (spawn_command_critical st) eqn:Hsc,
     (pct <=? low_level c) eqn:Hpl, (pct <=? critical_level c) eqn:Hpc.
  all: try (apply status_is_true in Hold).
  all: destruct retl.
  all: repeat (progress (cbn [negb andb orb old_battery_status battery_low
                              battery_critical spawn_command_low
                              spawn_command_critical memo];
                         rewrite ?Hl, ?Hc, ?Hsl, ?Hsc)).
  all: eexists; eexists; (split; [reflexivity |]).
  all: cbn [old_battery_status battery_low battery_critical
            spawn_command_low spawn_command_critical memo].
  all: rewrite ?cnt_app, ?cnt_cons;
       rewrite ?(proj1 (Hns _ _ _)), ?(proj2 (Hns _ _ _)),
         ?L1, ?L2, ?L3, ?L4, ?K1, ?K2, ?K3, ?K4.
  all: count_poll_events.
  all: cbn [negb andb orb]; rewrite <- ?L5.
  all: repeat split; try assumption; try reflexivity.
  all: destruct (is_some (command_low_level c)),
         (is_some (command_critical_level c)),
         (still_discharging (apm_read p));
       first [reflexivity | discriminate L5].
Qed.

Lemma switch_discharging g c s p st :
  is_discharging s ->
  switch_battery_status g c s p st = discharging_case g c s p st.
Proof. intros [-> | ->]; reflexivity. Qed.

Lemma in_session_latches st :
  old_battery_status st = Some DISCHARGING ->
  new_session st = false /\
  low_latch st = battery_low st /\ low_pending st = spawn_command_low st.
Proof.
  intros H. unfold low_latch, low_pending, new_session. rewrite H. simpl. auto.
Qed.

Lemma session_low_once g c ps :
  forall st,
    discharging_session ps ->
    low_pending st = false ->
    exists st' evs,
      run_switch g c ps st = Some (st', evs) /\
      (count_events is_low_notification evs <= b2n (negb (low_latch st)))%nat /\
      (count_events is_low_command_request evs <= b2n (negb (low_latch st)))%nat.
Proof.
  induction ps as [| [s p] ps IH]; intros st Hps Hst.
  - exists st, []. split; [reflexivity |].
    unfold count_events. simpl. split; lia.
  - inversion Hps as [| x l Hs Hps' Heq]; subst. cbn [fst] in Hs.
    cbn [run_switch]. rewrite (switch_discharging g c s p st Hs).
    destruct (discharging_case_spec g c s p st Hs)
      as (st1 & ev & -> & Hold & Hsl & Hlow & _ & Hn & _ & Hr & _).
    destruct (in_session_latches st1 Hold) as (_ & Hlatch & Hpend).
    destruct (IH st1 Hps') as (st2 & evs & -> & Hn2 & Hr2).
    { now rewrite Hpend. }
    exists st2, (ev :: evs). split; [reflexivity |].
    rewrite !count_events_cons, Hn, Hr.
    rewrite Hlatch, Hlow in Hn2, Hr2. rewrite Hst. cbn [orb].
    unfold crosses_low in *.
    destruct (low_latch st), (battery_percentage (apm_read p) <=? low_level c),
      (is_some (command_low_level c)); cbn [negb andb orb b2n] in *; lia.
Qed.

Lemma HANDLE_BATTERY_STATUS_flags c s st PCT TIM EXP URG :
  spawn_command_low (fst (HANDLE_BATTERY_STATUS c s st PCT TIM EXP URG))
  = spawn_command_low st.
Proof.
  unfold HANDLE_BATTERY_STATUS.
  destruct (negb (status_is (old_battery_status st) s)); reflexivity.
Qed.

Lemma switch_low_flag_clear g c s p st st' ev :
  switch_battery_status g c s p st = Some (st', ev) ->
  spawn_command_low st = false ->
  spawn_command_low st' = false.
Proof.
  intros H Hst. destruct s; cbn [switch_battery_status] in H.
  1-3: injection H as H; apply (f_equal fst) in H; cbn [fst] in H;
    rewrite <- H; now rewrite HANDLE_BATTERY_STATUS_flags.
  - unfold charging_case in H.
    destruct (get_battery_charge _ _ _ _ _) as [[[pct time] e] |];
      [| discriminate].
    injection H as H. apply (f_equal fst) in H. cbn [fst] in H.
    rewrite <- H, HANDLE_BATTERY_STATUS_flags.
    destruct (negb (status_is (old_battery_status st) CHARGING)); exact Hst.
  - destruct (discharging_case_spec g c DISCHARGING p st (or_introl eq_refl))
      as (st1 & ev1 & E & _ & Hsl & _).
    rewrite E in H. now injection H as <- _.
  - destruct (discharging_case_spec g c NOTCHARGING p st (or_intror eq_refl))
      as (st1 & ev1 & E & _ & Hsl & _).
    rewrite E in H. now injection H as <- _.
  - now injection H as <- _.
  - now injection H as <- _.
Qed.

Lemma run_switch_low_flag_clear g c ps :
  forall st st' evs,
    run_switch g c ps st = Some (st', evs) ->
    spawn_command_low st = false ->
    spawn_command_low st' = false.
Proof.
  induction ps as [| [s p] ps IH]; intros st st' evs H Hst.
  - now injection H as <- _.
  - cbn [run_switch] in H.
    destruct (switch_battery_status g c s p st) as [[st1 ev] |] eqn:E;
      [| discriminate].
    destruct (run_switch g c ps st1) as [[st2 evs2] |] eqn:E2; [| discriminate].
    injection H as <- _.
    eapply IH; [exact E2 |]. eapply switch_low_flag_clear; eassumption.
Qed.

Lemma low_pending_clear st : spawn_command_low st = false -> low_pending st = false.
Proof. intros H. unfold low_pending. rewrite H. now destruct (new_session st). Qed.

(** C4: whatever polls came before, a run of polls classified DISCHARGING
    or NOTCHARGING is carried out without failure, and in it the low
    notification is sent at most once and the low command is requested at
    most once, however the percentages of the run move around
    low_level. *)
Theorem low_crossing_at_most_once g c now history st0 evs0 ps :
  run g c history (tray_state_init now) = Some (st0, evs0) ->
  discharging_session ps ->
  exists st' evs,
    run_switch g c ps st0 = Some (st', evs) /\
    (count_events is_low_notification evs <= 1)%nat /\
    (count_events is_low_command_request evs <= 1)%nat.
Proof.
  intros Hrun Hps.
  assert (Hclear : spawn_command_low st0 = false).
  { eapply run_switch_low_flag_clear; [exact Hrun | reflexivity]. }
  destruct (session_low_once g c ps st0 Hps (low_pending_clear st0 Hclear))
    as (st' & evs & E & Hn & Hr).
  exists st', evs. split; [exact E |].
  destruct (low_latch st0); cbn [negb b2n] in Hn, Hr; split; lia.
Qed.

Lemma low_crossing_at_most_once_witness :
  let history := [sample_poll 3 100; sample_poll 3 100] in
  let session :=
    [(DISCHARGING, sample_poll 0 30); (DISCHARGING, sample_poll 1 15);
     (NOTCHARGING, sample_poll 0 25); (DISCHARGING, sample_poll 1 10);
     (DISCHARGING, sample_poll 2 4)] in
  exists st0 evs0,
    run monotonic_elapsed sample_configuration history (tray_state_init 0)
      = Some (st0, evs0) /\
    exists st' evs,
      run_switch monotonic_elapsed sample_configuration session st0
        = Some (st', evs) /\
      (count_events is_low_notification evs <= 1)%nat /\
      (count_events is_low_command_request evs <= 1)%nat.
Proof.
  cbv zeta. eexists. eexists. split; [vm_compute; reflexivity |].
  eapply (low_crossing_at_most_once monotonic_elapsed sample_configuration 0
           [sample_poll 3 100; sample_poll 3 100] _ _
           [(DISCHARGING, sample_poll 0 30); (DISCHARGING, sample_poll 1 15);
            (NOTCHARGING, sample_poll 0 25); (DISCHARGING, sample_poll 1 10);
            (DISCHARGING, sample_poll 2 4)]).
  - vm_compute. reflexivity.
  - repeat (apply Forall_cons;
            [first [left; reflexivity | right; reflexivity] |]).
    apply Forall_nil.
Defined.

Example sample_session_fires_once :
  exists st evs,
    run monotonic_elapsed sample_configuration
      [sample_poll 0 30; sample_poll 1 15; sample_poll 0 25; sample_poll 1 10]
      (tray_state_init 0) = Some (st, evs) /\
    count_events is_low_notification evs = 1%nat /\
    count_events is_low_command_request evs = 1%nat.
Proof. eexists. eexists. split; [vm_compute; reflexivity |]. split; reflexivity. Qed.

(** A charging interlude starts a new session, which fires again. *)
Example sample_new_session_fires_again :
  exists st evs,
    run monotonic_elapsed sample_configuration
      [sample_poll 0 15; sample_poll 3 16; sample_poll 0 15]
      (tray_state_init 0) = Some (st, evs) /\
    count_events is_low_notification evs = 2%nat.
Proof. eexists. eexists. split; [vm_compute; reflexivity |]. reflexivity. Qed.

Lemma still_discharging_classified (info : apm_info) :
  is_discharging (get_battery_status info) -> still_discharging info = true.
Proof. unfold still_discharging. intros [-> | ->]; reflexivity. Qed.

(** C5: on the first poll of a discharging session, with the percentage
    at or below critical_level and critical_level below low_level, the one
    poll sets both latches and sends both the low and the critical
    notification; it requests the low command if one is configured, and
    the critical command if one is configured and the low block did not
    leave the routine. *)
Theorem first_poll_crosses_both g c s p st :
  is_discharging s ->
  new_session st = true ->
  battery_percentage (apm_read p) <= critical_level c ->
  critical_level c < low_level c ->
  exists st' ev,
    switch_battery_status g c s p st = Some (st', ev) /\
    battery_low st' = true /\ battery_critical st' = true /\
    cnt is_low_notification ev = 1%nat /\
    cnt is_critical_notification ev = 1%nat /\
    cnt is_low_command_request ev = b2n (is_some (command_low_level c)) /\
    cnt is_critical_command_request ev
      = b2n (is_some (command_critical_level c)
             && negb (is_some (command_low_level c)
                      && negb (still_discharging (apm_read p)))).
Proof.
  intros Hs Hnew Hc Hlt. rewrite (switch_discharging g c s p st Hs).
  destruct (discharging_case_spec g c s p st Hs)
    as (st1 & ev & E & _ & _ & Hlow & Hcrit & Hn & Hnc & Hr & Hrc).
  exists st1, ev. split; [exact E |].
  unfold crosses_low, crosses_critical, low_latch, critical_latch, low_pending,
    critical_pending in *.
  rewrite Hnew in *.
  assert (E1 : (battery_percentage (apm_read p) <=? low_level c) = true)
    by (apply Z.leb_le; lia).
  assert (E2 : (battery_percentage (apm_read p) <=? critical_level c) = true)
    by (apply Z.leb_le; lia).
  rewrite E1, E2 in *. cbn [negb andb orb b2n] in *.
  repeat split; assumption.
Qed.

Lemma first_poll_crosses_both_witness :
  exists st' ev,
    switch_battery_status monotonic_elapsed sample_configuration DISCHARGING
      (sample_poll 2 3) (tray_state_init 0) = Some (st', ev) /\
    battery_low st' = true /\ battery_critical st' = true /\
    cnt is_low_notification ev = 1%nat /\
    cnt is_critical_notification ev = 1%nat /\
    cnt is_low_command_request ev = 1%nat /\
    cnt is_critical_command_request ev = 1%nat.
Proof.
  apply (first_poll_crosses_both monotonic_elapsed sample_configuration
           DISCHARGING (sample_poll 2 3) (tray_state_init 0)).
  - left. reflexivity.
  - reflexivity.
  - simpl. lia.
  - simpl. lia.
Defined.

(** * Further properties *)

(** ** The classifier, state by state *)

(** X1: the classification read as a table.  MISSING is the answer exactly
    for code 4 with the charging flag clear, UNKNOWN exactly for a code
    outside 0..4 with the flag clear, DISCHARGING exactly for the codes 0,
    1, 2 with the flag clear, and CHARGING exactly when the charging
    condition holds with a percentage other than 100. *)
Theorem classification_table (info : apm_info) :
  (get_battery_status info = MISSING <->
     battery_status info = 4 /\ charging_flag info = false) /\
  (get_battery_status info = UNKNOWN <->
     ~ In (battery_status info) [0; 1; 2; 3; 4] /\ charging_flag info = false) /\
  (get_battery_status info = DISCHARGING <->
     In (battery_status info) [0; 1; 2] /\ charging_flag info = false) /\
  (get_battery_status info = CHARGING <->
     charging_condition info /\ battery_percentage info <> 100).
Proof.
  unfold charging_condition.
  destruct (charging_flag info) eqn:Hf.
  - rewrite (get_battery_status_flagged info Hf).
    destruct (Z.eqb_spec (battery_percentage info) 100) as [Hp | Hp];
      simpl; intuition (try discriminate; try lia; try congruence).
  - rewrite (get_battery_status_unflagged info Hf).
    assert (Hcases :
      battery_status info = 0 \/ battery_status info = 1 \/
      battery_status info = 2 \/ battery_status info = 3 \/
      battery_status info = 4 \/ ~ In (battery_status info) [0; 1; 2; 3; 4]).
    { simpl. lia. }
    destruct Hcases as [E | [E | [E | [E | [E | E]]]]].
    1-5: rewrite E;
      destruct (Z.eqb_spec (battery_percentage info) 100) as [Hp | Hp];
      simpl; intuition (try discriminate; try lia; try congruence).
    assert (Hu : match battery_status info with
                 | 0 | 1 | 2 => DISCHARGING
                 | 3 => if battery_percentage info =? 100 then CHARGED else CHARGING
                 | 4 => MISSING
                 | _ => UNKNOWN
                 end = UNKNOWN).
    { simpl in E. destruct (battery_status info) as [| q | q];
        split_code; first [reflexivity | exfalso; lia]. }
    rewrite Hu. simpl in E. simpl.
    intuition (try discriminate; try lia; try congruence).
Qed.

(** ** The options, field by field *)

Lemma get_options_fields files its (c : configuration) :
  display_version c = false ->
  list_icon_types c = false ->
  let c0 := select_icon_type files its c in
  let c' := snd (get_options files its c) in
  icon_type c' = icon_type c0 /\
  update_interval c' =
    (if update_interval c <=? 0 then DEFAULT_UPDATE_INTERVAL else update_interval c) /\
  command_low_level c' = command_low_level c0 /\
  command_critical_level c' = command_critical_level c0.
Proof.
  intros Hv Hl c0 c'. subst c'. unfold get_options. rewrite Hv, Hl.
  destruct (select_icon_type_levels files its c) as (_ & _ & Eu).
  fold c0. fold c0 in Eu. rewrite <- Eu.
  destruct (update_interval c0 <=? 0); cbn [snd];
    repeat match goal with
           | |- context [if ?b then _ else _] => destruct b
           end; cbn; auto.
Qed.

(** X2: a run that goes past the option checks has a positive update
    interval: a value of 0 or less is replaced by 5, a positive one is
    kept. *)
Theorem update_interval_normalised files its (c : configuration) :
  display_version c = false ->
  list_icon_types c = false ->
  let c' := snd (get_options files its c) in
  0 < update_interval c' /\
  (update_interval c <= 0 -> update_interval c' = 5) /\
  (0 < update_interval c -> update_interval c' = update_interval c).
Proof.
  intros Hv Hl c'.
  destruct (get_options_fields files its c Hv Hl) as (_ & Eu & _).
  fold c' in Eu. rewrite Eu. unfold DEFAULT_UPDATE_INTERVAL.
  destruct (Z.leb_spec (update_interval c) 0); repeat split; intros; lia.
Qed.

Lemma update_interval_normalised_witness :
  update_interval
    (snd (get_options
            {| HAS_STANDARD_ICON_TYPE := false;
               HAS_NOTIFICATION_ICON_TYPE := true;
               HAS_GPM_ICON_TYPE := false |}
            None (set_update_interval configuration_init 0))) = 5.
Proof.
  apply (update_interval_normalised
           {| HAS_STANDARD_ICON_TYPE := false;
              HAS_NOTIFICATION_ICON_TYPE := true;
              HAS_GPM_ICON_TYPE := false |}
           None (set_update_interval configuration_init 0) eq_refl eq_refl).
  simpl. lia.
Defined.

(** X3: levels that are already consistent, 0 <= critical_level <=
    low_level <= 100, come out of the option checks unchanged. *)
Theorem consistent_levels_kept files its (c : configuration) :
  display_version c = false ->
  list_icon_types c = false ->
  0 <= critical_level c <= low_level c ->
  low_level c <= 100 ->
  low_level (snd (get_options files its c)) = low_level c /\
  critical_level (snd (get_options files its c)) = critical_level c.
Proof.
  intros Hv Hl Hc Hlow. unfold get_options. rewrite Hv, Hl.
  destruct (select_icon_type_levels files its c) as (El & Ec & _).
  set (c0 := select_icon_type files its c) in *.
  destruct (update_interval c0 <=? 0); simpl; rewrite ?El, ?Ec;
    destruct (Z.ltb_spec (low_level c) 0); try lia; simpl;
    destruct (Z.gtb_spec (low_level c) 100); try lia; simpl; rewrite ?El, ?Ec;
    destruct (Z.ltb_spec (critical_level c) 0); try lia; simpl;
    destruct (Z.gtb_spec (critical_level c) 100); try lia; simpl;
    rewrite ?El, ?Ec;
    destruct (Z.gtb_spec (critical_level c) (low_level c)); try lia; simpl;
    rewrite ?El, ?Ec; auto.
Qed.

Lemma consistent_levels_kept_witness :
  let c := set_levels configuration_init 35 10 in
  low_level (snd (get_options
                    {| HAS_STANDARD_ICON_TYPE := true;
                       HAS_NOTIFICATION_ICON_TYPE := false;
                       HAS_GPM_ICON_TYPE := false |} None c)) = 35 /\
  critical_level (snd (get_options
                    {| HAS_STANDARD_ICON_TYPE := true;
                       HAS_NOTIFICATION_ICON_TYPE := false;
                       HAS_GPM_ICON_TYPE := false |} None c)) = 10.
Proof.
  apply (consistent_levels_kept
           {| HAS_STANDARD_ICON_TYPE := true;
              HAS_NOTIFICATION_ICON_TYPE := false;
              HAS_GPM_ICON_TYPE := false |}
           None (set_levels configuration_init 35 10) eq_refl eq_refl);
    simpl; lia.
Defined.

Lemma set_icon_type_type (c : configuration) t : icon_type (set_icon_type c t) = t.
Proof. reflexivity. Qed.

(** X4: an icon type asked for by name ("standard", "notification" or
    "gpm") whose icons are installed is the one the program uses. *)
Theorem requested_icon_type_used files s t (c : configuration) :
  display_version c = false ->
  list_icon_types c = false ->
  icon_type_of_name s = Some t ->
  installed files t = true ->
  icon_type (snd (get_options files (Some s) c)) = t.
Proof.
  intros Hv Hl Hs Hi.
  destruct (get_options_fields files (Some s) c Hv Hl) as (-> & _).
  unfold icon_type_of_name in Hs. unfold select_icon_type.
  destruct (String.eqb s "standard").
  { injection Hs as <-. simpl in Hi. rewrite Hi. reflexivity. }
  destruct (String.eqb s "notification").
  { injection Hs as <-. simpl in Hi. rewrite Hi. reflexivity. }
  destruct (String.eqb s "gpm"); [| discriminate].
  injection Hs as <-. simpl in Hi. rewrite Hi. reflexivity.
Qed.

Lemma requested_icon_type_used_witness :
  icon_type
    (snd (get_options
            {| HAS_STANDARD_ICON_TYPE := true;
               HAS_NOTIFICATION_ICON_TYPE := false;
               HAS_GPM_ICON_TYPE := true |}
            (Some "gpm"%string) configuration_init)) = BATTERY_ICON_GPM.
Proof.
  apply (requested_icon_type_used
           {| HAS_STANDARD_ICON_TYPE := true;
              HAS_NOTIFICATION_ICON_TYPE := false;
              HAS_GPM_ICON_TYPE := true |}
           "gpm"%string BATTERY_ICON_GPM configuration_init);
    reflexivity.
Defined.

(** X5: starting, as the program does, without an icon type, the option
    checks never settle on an icon set that is not installed, whatever name
    was asked for; and they end without an icon type exactly when none of
    the three sets is installed. *)
Theorem icon_type_is_installed files its (c : configuration) :
  display_version c = false ->
  list_icon_types c = false ->
  icon_type c = UNKNOWN_ICON ->
  let t := icon_type (snd (get_options files its c)) in
  (t <> UNKNOWN_ICON -> installed files t = true) /\
  (t = UNKNOWN_ICON <->
     HAS_STANDARD_ICON_TYPE files = false /\
     HAS_NOTIFICATION_ICON_TYPE files = false /\
     HAS_GPM_ICON_TYPE files = false).
Proof.
  intros Hv Hl Hu t. subst t.
  destruct (get_options_fields files its c Hv Hl) as (-> & _).
  unfold select_icon_type.
  destruct files as [hs hn hg]. cbn [HAS_STANDARD_ICON_TYPE
    HAS_NOTIFICATION_ICON_TYPE HAS_GPM_ICON_TYPE].
  destruct its as [s |];
    [destruct (String.eqb s "standard"), (String.eqb s "notification"),
       (String.eqb s "gpm") |];
    destruct hs, hn, hg; cbn; rewrite ?Hu; cbn;
    intuition (try discriminate; try congruence).
Qed.

Lemma icon_type_is_installed_witness :
  icon_type
    (snd (get_options
            {| HAS_STANDARD_ICON_TYPE := false;
               HAS_NOTIFICATION_ICON_TYPE := false;
               HAS_GPM_ICON_TYPE := false |}
            (Some "standard"%string) configuration_init)) = UNKNOWN_ICON.
Proof.
  apply (icon_type_is_installed
           {| HAS_STANDARD_ICON_TYPE := false;
              HAS_NOTIFICATION_ICON_TYPE := false;
              HAS_GPM_ICON_TYPE := false |}
           (Some "standard"%string) configuration_init eq_refl eq_refl eq_refl).
  repeat split.
Defined.

(** ** The charge reader *)

Lemma wrap_gint_small (z : Z) : INT_MIN <= z <= INT_MAX -> wrap_gint z = z.
Proof.
  unfold wrap_gint, INT_MIN, INT_MAX. intros H.
  rewrite Z.mod_small by lia. lia.
Qed.

(** X6: while discharging the estimator is not consulted: the charge
    reader returns the sample's percentage and leaves the memo alone.  The
    time is the reported one when the sample is in minutes; from seconds
    (0 up to INT_MAX - 30) it is rounded to the nearest minute, halves
    upwards. *)
Theorem hardware_time_in_minutes g now (info : apm_info) (e : estimation) :
  exists time,
    get_battery_charge g now info true e
      = Some (battery_percentage info, time, e) /\
    (using_minutes info <> 0 -> time = battery_time info) /\
    (using_minutes info = 0 ->
     0 <= battery_time info <= INT_MAX - 30 ->
     60 * time - 30 <= battery_time info < 60 * time + 30).
Proof.
  unfold get_battery_charge. cbn [negb].
  destruct (Z.eqb_spec (using_minutes info) 0) as [E | E]; cbn [negb].
  - eexists. split; [reflexivity |]. split; [intros H; contradiction |].
    intros _ Ht. rewrite wrap_gint_small by (unfold INT_MIN, INT_MAX in *; lia).
    rewrite Z.quot_div_nonneg by lia.
    pose proof (Z.div_mod (battery_time info + 30) 60 ltac:(lia)).
    pose proof (Z.mod_pos_bound (battery_time info + 30) 60 ltac:(lia)).
    lia.
  - eexists. split; [reflexivity |]. split; [reflexivity |].
    intros H; contradiction.
Qed.

(** X7: a sample in seconds whose time lies between -89 and 29, the
    marker -1 for an unknown time among them, is read as 0 minutes and
    shown as "0 minutes remaining". *)
Theorem unknown_seconds_shown_as_zero g now (info : apm_info) (e : estimation) :
  using_minutes info = 0 ->
  -89 <= battery_time info <= 29 ->
  get_battery_charge g now info true e = Some (battery_percentage info, 0, e) /\
  get_time_string 0 = Some "0 minutes remaining"%string.
Proof.
  intros Hu Ht. split; [| reflexivity].
  unfold get_battery_charge. cbn [negb]. rewrite Hu. cbn [Z.eqb negb].
  rewrite wrap_gint_small by (unfold INT_MIN, INT_MAX; lia).
  replace (Z.quot (battery_time info + 30) 60) with 0; [reflexivity |].
  symmetry. apply Z.quot_small_iff; lia.
Qed.

Lemma unknown_seconds_shown_as_zero_witness :
  get_battery_charge monotonic_elapsed 0
    {| battery_status := 0; battery_flags := 0; battery_percentage := 64;
       battery_time := -1; using_minutes := 0 |} true (estimation_init 0)
  = Some (64, 0, estimation_init 0).
Proof.
  apply (unknown_seconds_shown_as_zero monotonic_elapsed 0
           {| battery_status := 0; battery_flags := 0; battery_percentage := 64;
              battery_time := -1; using_minutes := 0 |} (estimation_init 0));
    [reflexivity | simpl; lia].
Defined.

(** ** The tooltip *)

Lemma substring_prefix_app (n : nat) (a b : string) :
  substring 0 n (substring 0 n a ++ b) = substring 0 n (a ++ b).
Proof.
  revert a. induction n as [| n IH]; intros a.
  - destruct a; destruct b; reflexivity.
  - destruct a as [| x a]; [reflexivity |].
    cbn [substring append]. now rewrite IH.
Qed.

Lemma substring_prefix_length (n : nat) (s : string) :
  (String.length (substring 0 n s) <= n)%nat.
Proof.
  revert s. induction n as [| n IH]; intros s.
  - destruct s; simpl; lia.
  - destruct s as [| x s]; simpl; [lia |]. specialize (IH s). lia.
Qed.

Lemma substring_prefix_all (n : nat) (s : string) :
  (String.length s <= n)%nat -> substring 0 n s = s.
Proof.
  revert s. induction n as [| n IH]; intros s H.
  - destruct s; [reflexivity | simpl in H; lia].
  - destruct s as [| x s]; [reflexivity |].
    simpl in H. cbn [substring]. rewrite IH by lia. reflexivity.
Qed.

(** X8: the tooltip is the battery string, a line break and the time
    string cut to the first 255 characters (the battery string alone when
    there is no time string), so it never has more than 255 characters,
    and nothing is cut when the pieces fit. *)
Theorem tooltip_cut_to_buffer (battery : string) (time : option string) :
  let text :=
    match time with
    | Some t => (battery ++ String "010" "" ++ t)%string
    | None => battery
    end in
  get_tooltip_string battery time = substring 0 255 text /\
  (String.length (get_tooltip_string battery time) <= 255)%nat /\
  ((String.length text <= 255)%nat -> get_tooltip_string battery time = text).
Proof.
  intros text.
  assert (E : get_tooltip_string battery time = substring 0 255 text).
  { subst text. unfold get_tooltip_string, g_strlcat, strl.
    change (STR_LTH - 1)%nat with 255%nat.
    destruct time as [t |]; [| reflexivity].
    rewrite substring_prefix_app, append_assoc, substring_prefix_app. reflexivity. }
  rewrite E. split; [reflexivity |]. split.
  - apply substring_prefix_length.
  - apply substring_prefix_all.
Qed.

(** ** The estimator, for every percentage *)

Lemma shr_1_nonneg mrs : 0 <= shr_m mrs -> 0 <= shr_m (shr_1 mrs).
Proof.
  destruct mrs as [m r s]. cbn [shr_m]. intros H.
  destruct m as [| q | q]; [| | lia]; cbn [shr_1].
  - cbn. lia.
  - destruct q; cbn; lia.
Qed.

Lemma iter_shr_1_nonneg p : forall mrs,
  0 <= shr_m mrs -> 0 <= shr_m (iter_pos shr_1 p mrs).
Proof.
  induction p as [p IH | p IH |]; intros mrs H; cbn [iter_pos].
  - apply IH, IH, shr_1_nonneg, H.
  - apply IH, IH, H.
  - apply shr_1_nonneg, H.
Qed.

Lemma shr_fexp_nonneg m e l :
  0 <= m -> 0 <= shr_m (fst (shr_fexp Double.prec Double.emax m e l)).
Proof.
  intros H. unfold shr_fexp, shr.
  assert (H0 : 0 <= shr_m (shr_record_of_loc m l)).
  { destruct l as [| []]; exact H. }
  destruct (fexp Double.prec Double.emax (Zdigits2 m + e) - e) as [| p | p];
    cbn [fst]; [exact H0 | | exact H0].
  now apply iter_shr_1_nonneg.
Qed.

Lemma round_nearest_even_nonneg m l : 0 <= m -> 0 <= round_nearest_even m l.
Proof.
  intros H. unfold round_nearest_even.
  destruct l as [| []]; try destruct (Z.even m); lia.
Qed.

Lemma binary_round_aux_not_nan s m e l :
  0 <= m -> is_nan (binary_round_aux Double.prec Double.emax s m e l) = false.
Proof.
  intros H. unfold binary_round_aux.
  pose proof (shr_fexp_nonneg m e l H) as H1.
  destruct (shr_fexp Double.prec Double.emax m e l) as [mrs' e'].
  cbn [fst] in H1.
  pose proof (shr_fexp_nonneg _ e' loc_Exact
                (round_nearest_even_nonneg _ (loc_of_shr_record mrs') H1)) as H2.
  destruct (shr_fexp Double.prec Double.emax
              (round_nearest_even (shr_m mrs') (loc_of_shr_record mrs'))
              e' loc_Exact) as [mrs'' e''].
  cbn [fst] in H2.
  destruct (shr_m mrs'') as [| q | q]; [reflexivity | | lia].
  destruct (e'' <=? Double.emax - Double.prec); reflexivity.
Qed.

Lemma of_int_not_nan (z : Z) : is_nan (Double.of_int z) = false.
Proof.
  unfold Double.of_int, binary_normalize.
  destruct z as [| q | q]; [reflexivity | |];
    unfold binary_round;
    destruct (shl_align q 0 _) as [mz ez];
    apply binary_round_aux_not_nan; lia.
Qed.

Lemma eqb_refl (x : gdouble) : is_nan x = false -> Double.eqb x x = true.
Proof.
  unfold Double.eqb, SFeqb, SFcompare.
  destruct x as [s | s | | s m e]; intros H; try discriminate.
  - reflexivity.
  - destruct s; reflexivity.
  - rewrite Z.compare_refl.
    replace (Pos.compare_cont Eq m m) with Eq
      by (symmetry; apply Pos.compare_refl).
    destruct s; reflexivity.
Qed.

Lemma of_int_eqb_refl (z : Z) : Double.eqb (Double.of_int z) (Double.of_int z) = true.
Proof. apply eqb_refl, of_int_not_nan. Qed.

(** X9: whatever the memo held, after a reset the first call returns -1,
    "no estimate", for every percentage, every target and every reading
    of the clock; it only remembers the percentage, and the timer keeps
    running from the reset. *)
Theorem first_call_after_reset g t0 now (z : Z) (y : gdouble) (e : estimation) :
  get_battery_time_estimation g now (Double.of_int z) y
    (reset_battery_time_estimation t0 e)
  = Some (-1,
          {| estimation_remaining_capacity := Double.of_int z;
             estimation_time := -1;
             estimation_timer := g_timer_start t0 |}).
Proof. apply estimation_seed, of_int_eqb_refl. Qed.

Lemma estimation_result g now (pct y : gdouble) (e : estimation) t e' :
  Double.eqb pct pct = true ->
  get_battery_time_estimation g now pct y e = Some (t, e') ->
  estimation_time e' = t /\
  Double.eqb pct (estimation_remaining_capacity e') = true.
Proof.
  intros Hp. unfold get_battery_time_estimation, Double.neqb.
  destruct (Double.eqb (estimation_remaining_capacity e) minus_one);
    cbn [estimation_remaining_capacity estimation_time estimation_timer].
  - fold (Double.eqb pct pct). rewrite Hp. cbn [negb].
    intros H. injection H as <- <-. split; [reflexivity | exact Hp].
  - fold (Double.eqb pct (estimation_remaining_capacity e)).
    destruct (Double.eqb pct (estimation_remaining_capacity e)) eqn:E;
      cbn [negb].
    + intros H. injection H as <- <-. split; [reflexivity | exact E].
    + destruct (Double.to_int _) as [time |]; [| discriminate].
      intros H. injection H as <- <-. split; [reflexivity | exact Hp].
Qed.

(** X10: what a call returns is what it leaves in the memo, and asking
    again with the same percentage, at any later reading of the clock and
    for any target, returns that same estimate and changes nothing. *)
Theorem repeated_call_same_estimate g now (z : Z) (y : gdouble)
    (e : estimation) t e' :
  get_battery_time_estimation g now (Double.of_int z) y e = Some (t, e') ->
  estimation_time e' = t /\
  (forall now' y',
     get_battery_time_estimation g now' (Double.of_int z) y' e' = Some (t, e')).
Proof.
  intros H.
  destruct (estimation_result g now _ y e t e' (of_int_eqb_refl z) H) as [Et Ec].
  split; [exact Et |]. intros now' y'. rewrite <- Et.
  now apply estimation_unchanged.
Qed.

Lemma repeated_call_same_estimate_witness :
  get_battery_time_estimation monotonic_elapsed 999000000 (Double.of_int 70)
    (Double.of_int 100)
    {| estimation_remaining_capacity := Double.of_int 70;
       estimation_time := 7;
       estimation_timer := g_timer_start 60000000 |}
  = Some (7,
          {| estimation_remaining_capacity := Double.of_int 70;
             estimation_time := 7;
             estimation_timer := g_timer_start 60000000 |}).
Proof.
  refine (proj2 (repeated_call_same_estimate monotonic_elapsed 60000000 70
                   (Double.of_int 0)
                   {| estimation_remaining_capacity := Double.of_int 80;
                      estimation_time := -1;
                      estimation_timer := g_timer_start 0 |} 7 _ _) _ _).
  vm_compute. reflexivity.
Defined.

(** ** The poll routine, block by block *)

Lemma discharging_case_blocks g c s p st :
  let pct := battery_percentage (apm_read p) in
  exists time st0 ev0 st1 b1 ev1 st2 b2 ev2 st3 ev3,
    let ts := get_time_string time in
    get_battery_charge g (poll_clock p) (apm_read p) true (memo st)
      = Some (pct, time, memo st) /\
    enter_discharging (get_battery_string s pct) ts st = (st0, ev0) /\
    check_low_level c pct ts (get_battery_string s pct) st0 = (st1, b1, ev1) /\
    check_critical_level c pct ts b1 st1 = (st2, b2, ev2) /\
    spawn_commands c p st2 = (st3, ev3) /\
    discharging_case g c s p st
    = Some (st3,
            (ev0 ++ ev1 ++ ev2 ++
             [set_tooltip_text (get_tooltip_string b2 ts);
              set_tray_icon (get_icon_name c s pct)] ++ ev3)%list).
Proof.
  intros pct.
  destruct (get_battery_charge_remaining g (poll_clock p) (apm_read p) (memo st))
    as [time E].
  unfold discharging_case. rewrite E, set_memo_same. fold pct.
  destruct (enter_discharging _ _ st) as [st0 ev0] eqn:E0.
  destruct (check_low_level c pct _ _ st0) as [[st1 b1] ev1] eqn:E1.
  destruct (check_critical_level c pct _ b1 st1) as [[st2 b2] ev2] eqn:E2.
  destruct (spawn_commands c p st2) as [st3 ev3] eqn:E3.
  exists time, st0, ev0, st1, b1, ev1, st2, b2, ev2, st3, ev3.
  cbv zeta. repeat split; assumption || reflexivity.
Qed.

Lemma enter_discharging_state b ts st :
  let st0 := fst (enter_discharging b ts st) in
  old_battery_status st0 = Some DISCHARGING /\
  battery_low st0 = low_latch st /\
  battery_critical st0 = critical_latch st /\
  spawn_command_low st0 = low_pending st /\
  spawn_command_critical st0 = critical_pending st /\
  memo st0 = memo st.
Proof.
  unfold enter_discharging, low_latch, critical_latch, low_pending,
    critical_pending, new_session.
  destruct (status_is (old_battery_status st) DISCHARGING) eqn:E;
    cbn [negb fst]; repeat split; try reflexivity.
  now apply status_is_true.
Qed.

Lemma check_low_level_state c pct ts b st :
  let fire := negb (battery_low st) && (pct <=? low_level c) in
  let st1 := fst (fst (check_low_level c pct ts b st)) in
  old_battery_status st1 = old_battery_status st /\
  battery_low st1 = battery_low st || fire /\
  battery_critical st1 = battery_critical st /\
  spawn_command_low st1 = spawn_command_low st || fire /\
  spawn_command_critical st1 = spawn_command_critical st /\
  memo st1 = memo st.
Proof.
  unfold check_low_level.
  destruct (negb (battery_low st) && (pct <=? low_level c)); cbn [fst];
    cbn [old_battery_status battery_low battery_critical spawn_command_low
         spawn_command_critical memo];
    rewrite ?orb_true_r, ?orb_false_r; repeat split; reflexivity.
Qed.

Lemma check_critical_level_state c pct ts b st :
  let fire := negb (battery_critical st) && (pct <=? critical_level c) in
  let st1 := fst (fst (check_critical_level c pct ts b st)) in
  old_battery_status st1 = old_battery_status st /\
  battery_low st1 = battery_low st /\
  battery_critical st1 = battery_critical st || fire /\
  spawn_command_low st1 = spawn_command_low st /\
  spawn_command_critical st1 = spawn_command_critical st || fire /\
  memo st1 = memo st.
Proof.
  unfold check_critical_level.
  destruct (negb (battery_critical st) && (pct <=? critical_level c)); cbn [fst];
    cbn [old_battery_status battery_low battery_critical spawn_command_low
         spawn_command_critical memo];
    rewrite ?orb_true_r, ?orb_false_r; repeat split; reflexivity.
Qed.

Lemma spawn_commands_state c p st :
  let st1 := fst (spawn_commands c p st) in
  old_battery_status st1 = old_battery_status st /\
  battery_low st1 = battery_low st /\
  battery_critical st1 = battery_critical st /\
  spawn_command_low st1 = false /\
  spawn_command_critical st1
    = spawn_command_critical st
      && (spawn_command_low st && is_some (command_low_level c)
          && negb (still_discharging (apm_read p))) /\
  memo st1 = memo st.
Proof.
  unfold spawn_commands.
  destruct (spawn_low_events c p) as (_ & _ & _ & _ & L5).
  destruct (spawn_low c p) as [evl retl]. cbn [snd] in L5. subst retl.
  destruct (spawn_command_low st) eqn:Hsl;
    destruct (is_some (command_low_level c)),
      (still_discharging (apm_read p));
    cbn [andb negb fst old_battery_status battery_low battery_critical
         spawn_command_low spawn_command_critical memo];
    destruct (spawn_command_critical st) eqn:Hsc;
    cbn [andb negb fst old_battery_status battery_low battery_critical
         spawn_command_low spawn_command_critical memo];
    rewrite ?Hsl, ?Hsc; repeat split; reflexivity.
Qed.

Lemma discharging_case_state g c s p st st' ev :
  discharging_case g c s p st = Some (st', ev) ->
  let pct := battery_percentage (apm_read p) in
  old_battery_status st' = Some DISCHARGING /\
  memo st' = memo st /\
  spawn_command_low st' = false /\
  spawn_command_critical st'
    = (critical_pending st || crosses_critical c st pct)
      && ((low_pending st || crosses_low c st pct)
          && is_some (command_low_level c)
          && negb (still_discharging (apm_read p))).
Proof.
  intros H pct.
  destruct (discharging_case_blocks g c s p st)
    as (time & st0 & ev0 & st1 & b1 & ev1 & st2 & b2 & ev2 & st3 & ev3 & Hb).
  cbv zeta in Hb. fold pct in Hb.
  destruct Hb as (_ & E0 & E1 & E2 & E3 & E).
  rewrite E in H. injection H as <- _.
  pose proof (enter_discharging_state (get_battery_string s pct)
                (get_time_string time) st) as D.
  pose proof (check_low_level_state c pct (get_time_string time)
                (get_battery_string s pct) st0) as C.
  pose proof (check_critical_level_state c pct (get_time_string time) b1 st1) as B.
  pose proof (spawn_commands_state c p st2) as A.
  cbv zeta in A, B, C, D. rewrite E0 in D. rewrite E1 in C. rewrite E2 in B.
  rewrite E3 in A. cbn [fst] in A, B, C, D.
  destruct A as (A1 & _ & _ & A4 & A5 & A6).
  destruct B as (B1 & _ & _ & B4 & B5 & B6).
  destruct C as (C1 & C2 & C3 & C4 & C5 & C6).
  destruct D as (D1 & D2 & D3 & D4 & D5 & D6).
  rewrite A1, B1, C1, D1, A4, A5, A6, B4, B5, B6, C3, C4, C5, C6, D2, D3, D4, D5, D6.
  unfold crosses_low, crosses_critical. repeat split; reflexivity.
Qed.

Lemma cnt_notifications_only f (l : list event) :
  (forall e, is_notification e = true -> f e = false) ->
  Forall (fun e => is_notification e = true) l ->
  cnt f l = 0%nat.
Proof.
  intros Hf Hl. induction Hl as [| e l He _ IH]; [reflexivity |].
  rewrite cnt_cons, IH, (Hf e He). reflexivity.
Qed.

Lemma enter_discharging_events b ts st :
  Forall (fun e => is_notification e = true) (snd (enter_discharging b ts st)).
Proof.
  unfold enter_discharging.
  destruct (negb (status_is (old_battery_status st) DISCHARGING)); cbn [snd];
    repeat constructor.
Qed.

Lemma check_low_level_events c pct ts b st :
  Forall (fun e => is_notification e = true) (snd (check_low_level c pct ts b st)).
Proof.
  unfold check_low_level.
  destruct (negb (battery_low st) && (pct <=? low_level c)); cbn [snd];
    repeat constructor.
Qed.

Lemma check_critical_level_events c pct ts b st :
  Forall (fun e => is_notification e = true)
    (snd (check_critical_level c pct ts b st)).
Proof.
  unfold check_critical_level.
  destruct (negb (battery_critical st) && (pct <=? critical_level c)); cbn [snd];
    repeat constructor.
Qed.

Lemma spawn_low_shape c p :
  cnt is_tooltip (fst (spawn_low c p)) = 0%nat /\
  cnt is_icon (fst (spawn_low c p)) = 0%nat /\
  cnt is_skip (fst (spawn_low c p))
    = b2n (is_some (command_low_level c) && negb (still_discharging (apm_read p))) /\
  cnt is_spawn (fst (spawn_low c p))
    = b2n (is_some (command_low_level c) && still_discharging (apm_read p)).
Proof.
  unfold spawn_low.
  destruct (command_low_level c) as [cmd |]; [| repeat split; reflexivity].
  destruct (still_discharging (apm_read p)); cbn [negb].
  - destruct (spawn_error p cmd); repeat split; reflexivity.
  - repeat split; reflexivity.
Qed.

Lemma spawn_critical_shape c p :
  cnt is_tooltip (fst (spawn_critical c p)) = 0%nat /\
  cnt is_icon (fst (spawn_critical c p)) = 0%nat /\
  cnt is_skip (fst (spawn_critical c p))
    = b2n (is_some (command_critical_level c)
           && negb (still_discharging (apm_read p))) /\
  cnt is_spawn (fst (spawn_critical c p))
    = b2n (is_some (command_critical_level c) && still_discharging (apm_read p)).
Proof.
  unfold spawn_critical.
  destruct (command_critical_level c) as [cmd |]; [| repeat split; reflexivity].
  destruct (still_discharging (apm_read p)); cbn [negb].
  - destruct (spawn_error p cmd); repeat split; reflexivity.
  - repeat split; reflexivity.
Qed.

Lemma spawn_commands_shape c p st :
  let ev := snd (spawn_commands c p st) in
  cnt is_tooltip ev = 0%nat /\
  cnt is_icon ev = 0%nat /\
  (still_discharging (apm_read p) = true ->
   cnt is_skip ev = 0%nat /\
   cnt is_spawn ev
     = (cnt is_low_command_request ev + cnt is_critical_command_request ev)%nat).
Proof.
  unfold spawn_commands.
  destruct (spawn_low_shape c p) as (S1 & S2 & S3 & S4).
  destruct (spawn_critical_shape c p) as (T1 & T2 & T3 & T4).
  destruct (spawn_low_events c p) as (_ & _ & L3 & L4 & L5).
  destruct (spawn_critical_events c p) as (_ & _ & K3 & K4).
  destruct (spawn_low c p) as [evl retl].
  destruct (spawn_critical c p) as [evc retc].
  cbn [fst snd] in *.
  destruct (spawn_command_low st), retl;
    cbn [spawn_command_critical];
    destruct (spawn_command_critical st); cbn [snd];
    rewrite ?cnt_app, ?S1, ?S2, ?T1, ?T2;
    (split; [reflexivity | split; [reflexivity |]]);
    intros Hs; rewrite Hs in *; cbn [negb] in *;
    rewrite ?andb_false_r, ?andb_true_r in *;
    rewrite ?cnt_app, ?S3, ?S4, ?T3, ?T4, ?L3, ?L4, ?K3, ?K4;
    try discriminate L5;
    cbn [b2n Nat.add cnt List.filter List.length];
    split; try reflexivity; lia.
Qed.

Lemma HANDLE_BATTERY_STATUS_state c s st PCT TIM EXP URG :
  let r := HANDLE_BATTERY_STATUS c s st PCT TIM EXP URG in
  old_battery_status (fst r) = Some s /\
  battery_low (fst r) = battery_low st /\
  battery_critical (fst r) = battery_critical st /\
  spawn_command_critical (fst r) = spawn_command_critical st /\
  memo (fst r) = memo st /\
  cnt is_notification (snd r) = b2n (negb (status_is (old_battery_status st) s)) /\
  cnt is_tooltip (snd r) = 1%nat /\ cnt is_icon (snd r) = 1%nat /\
  cnt is_skip (snd r) = 0%nat /\ cnt is_spawn (snd r) = 0%nat /\
  cnt is_low_command_request (snd r) = 0%nat /\
  cnt is_critical_command_request (snd r) = 0%nat.
Proof.
  unfold HANDLE_BATTERY_STATUS.
  destruct (status_is (old_battery_status st) s) eqn:E; cbn [negb fst snd];
    repeat split; try reflexivity.
  now apply status_is_true.
Qed.

Lemma get_battery_status_range (info : apm_info) :
  In (get_battery_status info) [MISSING; UNKNOWN; CHARGED; CHARGING; DISCHARGING].
Proof.
  destruct (charging_flag info) eqn:Hf.
  - rewrite (get_battery_status_flagged info Hf).
    destruct (battery_percentage info =? 100); simpl; tauto.
  - rewrite (get_battery_status_unflagged info Hf).
    destruct (battery_percentage info =? 100);
      destruct (battery_status info) as [| q | q]; split_code; simpl; tauto.
Qed.

Lemma charging_case_result g c p st st' ev :
  charging_case g c p st = Some (st', ev) ->
  exists st0 pct time,
    (st', ev) = HANDLE_BATTERY_STATUS c CHARGING st0 pct time
                  NOTIFY_EXPIRES_DEFAULT NOTIFY_URGENCY_NORMAL /\
    old_battery_status st0 = old_battery_status st /\
    battery_low st0 = battery_low st /\
    battery_critical st0 = battery_critical st /\
    spawn_command_low st0 = spawn_command_low st /\
    spawn_command_critical st0 = spawn_command_critical st.
Proof.
  unfold charging_case. intros H.
  destruct (get_battery_charge _ _ _ _ _) as [[[pct time] e] |];
    [| discriminate].
  injection H as H. eexists. exists pct, time. split; [symmetry; exact H |].
  destruct (negb (status_is (old_battery_status st) CHARGING));
    repeat split; reflexivity.
Qed.

Lemma notifications_count_nothing (l : list event) :
  Forall (fun e => is_notification e = true) l ->
  cnt is_skip l = 0%nat /\ cnt is_spawn l = 0%nat /\
  cnt is_low_command_request l = 0%nat /\
  cnt is_critical_command_request l = 0%nat /\
  cnt is_tooltip l = 0%nat /\ cnt is_icon l = 0%nat.
Proof.
  intros H.
  repeat split; apply cnt_notifications_only; try exact H;
    intros [] He; try discriminate He; reflexivity.
Qed.

Ltac no_skip_in_discharging g c p st st0 b1 st1 st2 H Hstill :=
  let time := fresh "time" in let ev0 := fresh "ev0" in
  let ev1 := fresh "ev1" in let ev2 := fresh "ev2" in let b2 := fresh "b2" in
  let st3 := fresh "st3" in let ev3 := fresh "ev3" in let Hb := fresh "Hb" in
  let E0 := fresh "E0" in let E1 := fresh "E1" in let E2 := fresh "E2" in
  let E3 := fresh "E3" in let E := fresh "E" in
  let F0 := fresh "F0" in let F1 := fresh "F1" in let F2 := fresh "F2" in
  let F3 := fresh "F3" in let Hk := fresh "Hk" in let Hn := fresh "Hn" in
  let P0 := fresh "P0" in let Q0 := fresh "Q0" in let R0 := fresh "R0" in
  let S0 := fresh "S0" in let P1 := fresh "P1" in let Q1 := fresh "Q1" in
  let R1 := fresh "R1" in let S1 := fresh "S1" in let P2 := fresh "P2" in
  let Q2 := fresh "Q2" in let R2 := fresh "R2" in let S2 := fresh "S2" in
  match type of H with
  | discharging_case g c ?s p st = _ =>
      destruct (discharging_case_blocks g c s p st)
        as (time & st0 & ev0 & st1 & b1 & ev1 & st2 & b2 & ev2 & st3 & ev3 & Hb)
  end;
  cbv zeta in Hb; destruct Hb as (_ & E0 & E1 & E2 & E3 & E);
  rewrite E in H; injection H as _ <-;
  match type of E0 with
  | enter_discharging ?b ?t _ = _ =>
      pose proof (enter_discharging_events b t st) as F0
  end;
  match type of E1 with
  | check_low_level _ ?q ?t ?b _ = _ =>
      pose proof (check_low_level_events c q t b st0) as F1
  end;
  match type of E2 with
  | check_critical_level _ ?q ?t _ _ = _ =>
      pose proof (check_critical_level_events c q t b1 st1) as F2
  end;
  pose proof (spawn_commands_shape c p st2) as F3;
  cbv zeta in F3; rewrite E0 in F0; rewrite E1 in F1; rewrite E2 in F2;
  rewrite E3 in F3; cbn [snd] in F0, F1, F2, F3;
  destruct F3 as (_ & _ & F3); destruct (F3 Hstill) as [Hk Hn];
  destruct (notifications_count_nothing _ F0) as (P0 & Q0 & R0 & S0 & _);
  destruct (notifications_count_nothing _ F1) as (P1 & Q1 & R1 & S1 & _);
  destruct (notifications_count_nothing _ F2) as (P2 & Q2 & R2 & S2 & _);
  repeat rewrite ?cnt_app, ?cnt_cons;
  cbn [is_skip is_spawn is_low_command_request is_critical_command_request
       b2n Nat.add];
  rewrite P0, P1, P2, Q0, Q1, Q2, R0, R1, R2, S0, S1, S2, Hk, Hn;
  split; reflexivity.

(** X11: the "no longer discharging" check before a command can never
    cancel it: it classifies the very sample the poll started from.  In
    the events of a poll no command is ever skipped, and every command
    that is announced is also spawned. *)
Theorem announced_commands_are_spawned g c p st st' ev :
  update_tray_icon_status g c p st = Some (st', ev) ->
  cnt is_skip ev = 0%nat /\
  cnt is_spawn ev
    = (cnt is_low_command_request ev + cnt is_critical_command_request ev)%nat.
Proof.
  unfold update_tray_icon_status. intros H.
  destruct (get_battery_status (apm_read p)) eqn:Hs;
    cbn [switch_battery_status] in H.
  1-3: injection H as H;
    match type of H with
    | HANDLE_BATTERY_STATUS ?c ?s ?st ?a ?b ?x ?y = _ =>
        destruct (HANDLE_BATTERY_STATUS_state c s st a b x y)
          as (_ & _ & _ & _ & _ & _ & _ & _ & A & B & C & D)
    end; rewrite H in *; cbn [snd] in *; rewrite A, B, C, D; split; reflexivity.
  - destruct (charging_case_result g c p st st' ev H)
      as (st0 & pct & time & E & _).
    destruct (HANDLE_BATTERY_STATUS_state c CHARGING st0 pct time
                NOTIFY_EXPIRES_DEFAULT NOTIFY_URGENCY_NORMAL)
      as (_ & _ & _ & _ & _ & _ & _ & _ & A & B & C & D).
    rewrite <- E in *. cbn [snd] in *. rewrite A, B, C, D. split; reflexivity.
  - assert (Hstill : still_discharging (apm_read p) = true)
      by (unfold still_discharging; rewrite Hs; reflexivity).
    no_skip_in_discharging g c p st st0 b1 st1 st2 H Hstill.
  - assert (Hstill : still_discharging (apm_read p) = true)
      by (unfold still_discharging; rewrite Hs; reflexivity).
    no_skip_in_discharging g c p st st0 b1 st1 st2 H Hstill.
  - injection H as _ <-. split; reflexivity.
  - injection H as _ <-. split; reflexivity.
Qed.

(** X12: only a CHARGING poll touches the estimation memo: a poll taken
    through any other case of the switch leaves it as it was. *)
Theorem memo_changes_only_when_charging g c s p st st' ev :
  s <> CHARGING ->
  switch_battery_status g c s p st = Some (st', ev) ->
  memo st' = memo st.
Proof.
  intros Hs H. destruct s; cbn [switch_battery_status] in H;
    try contradiction.
  1-3: injection H as H; apply (f_equal fst) in H; cbn [fst] in H;
    rewrite <- H; apply HANDLE_BATTERY_STATUS_state.
  1-2: apply (discharging_case_state g c _ p st st' ev H).
  1-2: now injection H as <- _.
Qed.

Lemma memo_changes_only_when_charging_witness :
  exists st' ev,
    switch_battery_status monotonic_elapsed sample_configuration DISCHARGING
      (sample_poll 0 50) (tray_state_init 7) = Some (st', ev) /\
    memo st' = estimation_init 7.
Proof.
  eexists. eexists. split; [vm_compute; reflexivity |].
  eapply (memo_changes_only_when_charging monotonic_elapsed sample_configuration
            DISCHARGING (sample_poll 0 50) (tray_state_init 7)).
  - discriminate.
  - vm_compute. reflexivity.
Defined.

(** X13: MISSING, UNKNOWN and CHARGED are announced once.  The poll that
    finds such a status sends one notification if the status is new and
    none otherwise; a following poll with the same status sends none and
    leaves the state as it is. *)
Theorem status_announced_once g c s p p' st :
  s = MISSING \/ s = UNKNOWN \/ s = CHARGED ->
  exists st1 ev1 ev2,
    switch_battery_status g c s p st = Some (st1, ev1) /\
    cnt is_notification ev1 = b2n (negb (status_is (old_battery_status st) s)) /\
    switch_battery_status g c s p' st1 = Some (st1, ev2) /\
    cnt is_notification ev2 = 0%nat.
Proof.
  intros Hs.
  assert (Hrep : forall PCT TIM EXP URG st1,
            old_battery_status st1 = Some s ->
            HANDLE_BATTERY_STATUS c s st1 PCT TIM EXP URG
            = (st1, snd (HANDLE_BATTERY_STATUS c s st1 PCT TIM EXP URG)) /\
            cnt is_notification (snd (HANDLE_BATTERY_STATUS c s st1 PCT TIM EXP URG))
            = 0%nat).
  { intros PCT TIM EXP URG st1 Hold. unfold HANDLE_BATTERY_STATUS.
    rewrite Hold. cbn [status_is].
    assert (E : battery_state_eqb s s = true) by (destruct s; reflexivity).
    rewrite E. cbn [negb snd]. split; reflexivity. }
  destruct Hs as [-> | [-> | ->]]; cbn [switch_battery_status];
    match goal with
    | |- context [HANDLE_BATTERY_STATUS c ?s st ?a ?b ?x ?y] =>
        destruct (HANDLE_BATTERY_STATUS_state c s st a b x y)
          as (Hold & _ & _ & _ & _ & Hn & _);
        destruct (HANDLE_BATTERY_STATUS c s st a b x y) as [st1 ev1] eqn:E1;
        cbn [fst snd] in Hold, Hn;
        destruct (Hrep a b x y st1 Hold) as [E2 Hn2];
        exists st1, ev1, (snd (HANDLE_BATTERY_STATUS c s st1 a b x y));
        rewrite <- E2; repeat split; assumption
    end.
Qed.

Lemma status_announced_once_witness :
  exists st1 ev1 ev2,
    switch_battery_status monotonic_elapsed sample_configuration MISSING
      (sample_poll 4 0) (tray_state_init 0) = Some (st1, ev1) /\
    cnt is_notification ev1 = 1%nat /\
    switch_battery_status monotonic_elapsed sample_configuration MISSING
      (sample_poll 4 0) st1 = Some (st1, ev2) /\
    cnt is_notification ev2 = 0%nat.
Proof.
  apply (status_announced_once monotonic_elapsed sample_configuration MISSING
           (sample_poll 4 0) (sample_poll 4 0) (tray_state_init 0)).
  left. reflexivity.
Defined.

Lemma interlude_starts_new_session g c s p st st' ev :
  is_interlude s ->
  switch_battery_status g c s p st = Some (st', ev) ->
  new_session st' = true.
Proof.
  intros Hs H.
  assert (Hold : old_battery_status st' = Some s).
  { destruct Hs as [-> | [-> | [-> | ->]]]; cbn [switch_battery_status] in H.
    1-3: injection H as H; apply (f_equal fst) in H; cbn [fst] in H;
      rewrite <- H; apply HANDLE_BATTERY_STATUS_state.
    destruct (charging_case_result g c p st st' ev H)
      as (st0 & pct & time & E & _).
    apply (f_equal fst) in E. cbn [fst] in E. rewrite E.
    apply HANDLE_BATTERY_STATUS_state. }
  unfold new_session. rewrite Hold.
  destruct Hs as [-> | [-> | [-> | ->]]]; reflexivity.
Qed.

(** X14: any poll that finds the battery missing, unknown, charged or
    charging re-arms the thresholds: the next discharging poll at or below
    low_level sends the low notification and asks for the low command
    again, whatever the latches were before. *)
Theorem interlude_rearms_low_threshold g c s1 p1 st st1 ev1 s2 p2 :
  is_interlude s1 ->
  switch_battery_status g c s1 p1 st = Some (st1, ev1) ->
  is_discharging s2 ->
  battery_percentage (apm_read p2) <= low_level c ->
  exists st2 ev2,
    switch_battery_status g c s2 p2 st1 = Some (st2, ev2) /\
    battery_low st2 = true /\
    cnt is_low_notification ev2 = 1%nat /\
    cnt is_low_command_request ev2 = b2n (is_some (command_low_level c)).
Proof.
  intros Hs1 H1 Hs2 Hp.
  pose proof (interlude_starts_new_session g c s1 p1 st st1 ev1 Hs1 H1) as Hnew.
  rewrite (switch_discharging g c s2 p2 st1 Hs2).
  destruct (discharging_case_spec g c s2 p2 st1 Hs2)
    as (st2 & ev2 & E & _ & _ & Hlow & _ & Hn & _ & Hr & _).
  exists st2, ev2. split; [exact E |].
  unfold crosses_low, low_latch, low_pending in *. rewrite Hnew in *.
  assert (E1 : (battery_percentage (apm_read p2) <=? low_level c) = true)
    by (apply Z.leb_le; lia).
  rewrite E1 in *. cbn [negb andb orb] in *.
  repeat split; assumption.
Qed.

Lemma interlude_rearms_low_threshold_witness :
  exists st1 ev1 st2 ev2,
    switch_battery_status monotonic_elapsed sample_configuration CHARGED
      (sample_poll 3 100)
      {| old_battery_status := Some DISCHARGING;
         battery_low := true; battery_critical := true;
         spawn_command_low := false; spawn_command_critical := false;
         memo := estimation_init 0 |} = Some (st1, ev1) /\
    switch_battery_status monotonic_elapsed sample_configuration DISCHARGING
      (sample_poll 1 12) st1 = Some (st2, ev2) /\
    battery_low st2 = true /\
    cnt is_low_notification ev2 = 1%nat /\
    cnt is_low_command_request ev2 = 1%nat.
Proof.
  eexists. eexists.
  assert (H1 : switch_battery_status monotonic_elapsed sample_configuration
                 CHARGED (sample_poll 3 100)
                 {| old_battery_status := Some DISCHARGING;
                    battery_low := true; battery_critical := true;
                    spawn_command_low := false; spawn_command_critical := false;
                    memo := estimation_init 0 |}
               = Some (_, _)) by (vm_compute; reflexivity).
  destruct (interlude_rearms_low_threshold monotonic_elapsed
              sample_configuration CHARGED (sample_poll 3 100) _ _ _
              DISCHARGING (sample_poll 1 12)
              (or_intror (or_intror (or_introl eq_refl))) H1
              (or_introl eq_refl) ltac:(simpl; lia))
    as (st2 & ev2 & E & Hl & Hn & Hr).
  exists st2, ev2. repeat split; assumption.
Defined.



(** X16: inside a charging session a poll whose percentage is the
    remembered one changes nothing and notifies nothing: it shows the
    memoized estimate again. *)
Theorem charging_poll_holds_estimate g c p st :
  old_battery_status st = Some CHARGING ->
  Double.eqb (Double.of_int (battery_percentage (apm_read p)))
    (estimation_remaining_capacity (memo st)) = true ->
  let pct := battery_percentage (apm_read p) in
  switch_battery_status g c CHARGING p st
  = Some (st,
          [set_tooltip_text
             (get_tooltip_string (get_battery_string CHARGING pct)
                (get_time_string (estimation_time (memo st))));
           set_tray_icon (get_icon_name c CHARGING pct)]).
Proof.
  intros Hold Heq pct. cbn [switch_battery_status]. unfold charging_case.
  rewrite Hold. cbn [status_is battery_state_eqb negb].
  unfold get_battery_charge. cbn [negb]. fold pct.
  rewrite (estimation_unchanged g (poll_clock p) (Double.of_int pct)
             (Double.of_int 100) (memo st) Heq).
  rewrite set_memo_same. unfold HANDLE_BATTERY_STATUS. rewrite Hold.
  reflexivity.
Qed.

Lemma charging_poll_holds_estimate_witness :
  let st :=
    {| old_battery_status := Some CHARGING;
       battery_low := false; battery_critical := false;
       spawn_command_low := false; spawn_command_critical := false;
       memo := {| estimation_remaining_capacity := Double.of_int 40;
                  estimation_time := 95;
                  estimation_timer := g_timer_start 0 |} |} in
  exists ev,
    switch_battery_status monotonic_elapsed sample_configuration CHARGING
      (sample_poll 3 40) st = Some (st, ev) /\
    cnt is_notification ev = 0%nat.
Proof.
  cbv zeta. eexists. split.
  - apply (charging_poll_holds_estimate monotonic_elapsed sample_configuration
             (sample_poll 3 40)).
    + reflexivity.
    + vm_compute. reflexivity.
  - reflexivity.
Defined.

(** ** The critical threshold over a session *)

Lemma in_session_critical st :
  old_battery_status st = Some DISCHARGING ->
  critical_latch st = battery_critical st /\
  critical_pending st = spawn_command_critical st.
Proof.
  intros H. unfold critical_latch, critical_pending, new_session.
  rewrite H. simpl. auto.
Qed.

Lemma session_critical_once g c ps :
  forall st,
    discharging_session ps ->
    exists st' evs,
      run_switch g c ps st = Some (st', evs) /\
      (count_events is_critical_notification evs
       <= b2n (negb (critical_latch st)))%nat /\
      (count_events is_critical_command_request evs
       <= b2n (critical_pending st) + b2n (negb (critical_latch st)))%nat.
Proof.
  induction ps as [| [s p] ps IH]; intros st Hps.
  - exists st, []. split; [reflexivity |].
    unfold count_events. simpl. split; lia.
  - inversion Hps as [| x l Hs Hps' Heq]; subst. cbn [fst] in Hs.
    cbn [run_switch]. rewrite (switch_discharging g c s p st Hs).
    destruct (discharging_case_spec g c s p st Hs)
      as (st1 & ev & E & Hold & _ & _ & Hcrit & _ & Hn & _ & Hr).
    destruct (discharging_case_state g c s p st st1 ev E) as (_ & _ & _ & Hflag).
    rewrite E.
    destruct (in_session_critical st1 Hold) as (Hlatch & Hpend).
    destruct (IH st1 Hps') as (st2 & evs & -> & Hn2 & Hr2).
    exists st2, (ev :: evs). split; [reflexivity |].
    rewrite !count_events_cons, Hn, Hr.
    rewrite Hlatch, Hcrit in Hn2, Hr2. rewrite Hpend, Hflag in Hr2.
    unfold crosses_critical in *.
    destruct (critical_latch st), (critical_pending st),
      (battery_percentage (apm_read p) <=? critical_level c),
      (is_some (command_critical_level c)),
      ((low_pending st ||
        crosses_low c st (battery_percentage (apm_read p))) &&
       is_some (command_low_level c) && negb (still_discharging (apm_read p)));
      cbn [negb andb orb b2n] in *; lia.
Qed.

Lemma update_keeps_critical_flag_clear g c p st st' ev :
  update_tray_icon_status g c p st = Some (st', ev) ->
  spawn_command_critical st = false ->
  spawn_command_critical st' = false.
Proof.
  unfold update_tray_icon_status. intros H Hst.
  destruct (get_battery_status (apm_read p)) eqn:Hs;
    cbn [switch_battery_status] in H.
  1-3: injection H as H; apply (f_equal fst) in H; cbn [fst] in H;
    rewrite <- H;
    match goal with
    | |- context [HANDLE_BATTERY_STATUS ?c ?s ?st ?a ?b ?x ?y] =>
        destruct (HANDLE_BATTERY_STATUS_state c s st a b x y)
          as (_ & _ & _ & A & _)
    end; now rewrite A.
  - destruct (charging_case_result g c p st st' ev H)
      as (st0 & pct & time & E & _ & _ & _ & _ & E5).
    apply (f_equal fst) in E. cbn [fst] in E. rewrite E.
    destruct (HANDLE_BATTERY_STATUS_state c CHARGING st0 pct time
                NOTIFY_EXPIRES_DEFAULT NOTIFY_URGENCY_NORMAL)
      as (_ & _ & _ & A & _).
    now rewrite A, E5.
  - destruct (discharging_case_state g c _ p st st' ev H) as (_ & _ & _ & ->).
    unfold still_discharging. rewrite Hs. cbn.
    now rewrite !andb_false_r.
  - destruct (discharging_case_state g c _ p st st' ev H) as (_ & _ & _ & ->).
    unfold still_discharging. rewrite Hs. cbn.
    now rewrite !andb_false_r.
  - now injection H as <- _.
  - now injection H as <- _.
Qed.

Lemma run_keeps_critical_flag_clear g c ps :
  forall st st' evs,
    run g c ps st = Some (st', evs) ->
    spawn_command_critical st = false ->
    spawn_command_critical st' = false.
Proof.
  unfold run.
  induction ps as [| p ps IH]; intros st st' evs H Hst; cbn [map run_switch] in H.
  - now injection H as <- _.
  - destruct (switch_battery_status g c (get_battery_status (apm_read p)) p st)
      as [[st1 ev] |] eqn:E; [| discriminate].
    destruct (run_switch g c _ st1) as [[st2 evs2] |] eqn:E2; [| discriminate].
    injection H as <- _.
    eapply IH; [exact E2 |].
    eapply update_keeps_critical_flag_clear; [exact E | exact Hst].
Qed.

Lemma critical_pending_clear st :
  spawn_command_critical st = false -> critical_pending st = false.
Proof.
  intros H. unfold critical_pending. rewrite H. now destruct (new_session st).
Qed.

(** X17: the critical threshold is one-shot too.  Whatever polls came
    before, a run of polls classified DISCHARGING or NOTCHARGING sends the
    critical notification at most once and asks for the critical command
    at most once. *)
Theorem critical_crossing_at_most_once g c now history st0 evs0 ps :
  run g c history (tray_state_init now) = Some (st0, evs0) ->
  discharging_session ps ->
  exists st' evs,
    run_switch g c ps st0 = Some (st', evs) /\
    (count_events is_critical_notification evs <= 1)%nat /\
    (count_events is_critical_command_request evs <= 1)%nat.
Proof.
  intros Hrun Hps.
  assert (Hclear : spawn_command_critical st0 = false).
  { eapply run_keeps_critical_flag_clear; [exact Hrun | reflexivity]. }
  destruct (session_critical_once g c ps st0 Hps) as (st' & evs & E & Hn & Hr).
  exists st', evs. split; [exact E |].
  rewrite (critical_pending_clear st0 Hclear) in Hr.
  destruct (critical_latch st0); cbn [negb b2n] in Hn, Hr; split; lia.
Qed.

Lemma critical_crossing_at_most_once_witness :
  exists st0 evs0,
    run monotonic_elapsed sample_configuration
      [sample_poll 3 100; sample_poll 0 9] (tray_state_init 0)
      = Some (st0, evs0) /\
    exists st' evs,
      run_switch monotonic_elapsed sample_configuration
        [(DISCHARGING, sample_poll 0 6); (DISCHARGING, sample_poll 2 4);
         (NOTCHARGING, sample_poll 0 7); (DISCHARGING, sample_poll 2 2)] st0
        = Some (st', evs) /\
      (count_events is_critical_notification evs <= 1)%nat /\
      (count_events is_critical_command_request evs <= 1)%nat.
Proof.
  eexists. eexists. split; [vm_compute; reflexivity |].
  eapply (critical_crossing_at_most_once monotonic_elapsed sample_configuration
            0 [sample_poll 3 100; sample_poll 0 9] _ _
            [(DISCHARGING, sample_poll 0 6); (DISCHARGING, sample_poll 2 4);
             (NOTCHARGING, sample_poll 0 7); (DISCHARGING, sample_poll 2 2)]).
  - vm_compute. reflexivity.
  - repeat (apply Forall_cons;
            [first [left; reflexivity | right; reflexivity] |]).
    apply Forall_nil.
Defined.

(** X18: every poll refreshes the tooltip and the tray icon exactly
    once, whatever the sample and the state. *)
Theorem tooltip_and_icon_set_once g c p st st' ev :
  update_tray_icon_status g c p st = Some (st', ev) ->
  cnt is_tooltip ev = 1%nat /\ cnt is_icon ev = 1%nat.
Proof.
  unfold update_tray_icon_status. intros H.
  pose proof (get_battery_status_range (apm_read p)) as Hr.
  destruct (get_battery_status (apm_read p)) eqn:Hs;
    cbn [switch_battery_status] in H.
  1-3: injection H as H;
    match type of H with
    | HANDLE_BATTERY_STATUS ?c ?s ?st ?a ?b ?x ?y = _ =>
        destruct (HANDLE_BATTERY_STATUS_state c s st a b x y)
          as (_ & _ & _ & _ & _ & _ & A & B & _)
    end; rewrite H in *; cbn [snd] in *; split; assumption.
  - destruct (charging_case_result g c p st st' ev H)
      as (st0 & pct & time & E & _).
    destruct (HANDLE_BATTERY_STATUS_state c CHARGING st0 pct time
                NOTIFY_EXPIRES_DEFAULT NOTIFY_URGENCY_NORMAL)
      as (_ & _ & _ & _ & _ & _ & A & B & _).
    rewrite <- E in *. cbn [snd] in *. split; assumption.
  - destruct (discharging_case_blocks g c DISCHARGING p st)
      as (time & st0 & ev0 & st1 & b1 & ev1 & st2 & b2 & ev2 & st3 & ev3 & Hb).
    cbv zeta in Hb. destruct Hb as (_ & E0 & E1 & E2 & E3 & E).
    rewrite E in H. injection H as _ <-.
    pose proof (enter_discharging_events
                  (get_battery_string DISCHARGING
                     (battery_percentage (apm_read p)))
                  (get_time_string time) st) as F0.
    pose proof (check_low_level_events c (battery_percentage (apm_read p))
                  (get_time_string time)
                  (get_battery_string DISCHARGING
                     (battery_percentage (apm_read p))) st0) as F1.
    pose proof (check_critical_level_events c
                  (battery_percentage (apm_read p))
                  (get_time_string time) b1 st1) as F2.
    pose proof (spawn_commands_shape c p st2) as F3.
    cbv zeta in F3. rewrite E0 in F0. rewrite E1 in F1. rewrite E2 in F2.
    rewrite E3 in F3. cbn [snd] in F0, F1, F2, F3.
    destruct F3 as (T3 & I3 & _).
    destruct (notifications_count_nothing _ F0) as (_ & _ & _ & _ & T0 & I0).
    destruct (notifications_count_nothing _ F1) as (_ & _ & _ & _ & T1 & I1).
    destruct (notifications_count_nothing _ F2) as (_ & _ & _ & _ & T2 & I2).
    repeat rewrite ?cnt_app, ?cnt_cons. cbn [is_tooltip is_icon b2n].
    rewrite T0, T1, T2, T3, I0, I1, I2, I3. split; reflexivity.
  - exfalso. simpl in Hr. intuition discriminate.
  - exfalso. simpl in Hr. intuition discriminate.
  - exfalso. simpl in Hr. intuition discriminate.
Qed.

Lemma tooltip_and_icon_set_once_witness :
  exists st' ev,
    update_tray_icon_status monotonic_elapsed sample_configuration
      (sample_poll 1 4) (tray_state_init 0) = Some (st', ev) /\
    cnt is_tooltip ev = 1%nat /\ cnt is_icon ev = 1%nat.
Proof.
  eexists. eexists. split; [vm_compute; reflexivity |].
  eapply (tooltip_and_icon_set_once monotonic_elapsed sample_configuration
            (sample_poll 1 4) (tray_state_init 0)).
  vm_compute. reflexivity.
Defined.

(** ** The icon files *)

Lemma prefix_app (n s t : string) :
  (String.length n <= String.length s)%nat -> prefix n (s ++ t) = prefix n s.
Proof.
  revert s. induction n as [| a n IH]; intros s H;
    [destruct s; destruct t; reflexivity |].
  destruct s as [| b s]; [simpl in H; lia |].
  cbn [append prefix]. destruct (Ascii.ascii_dec a b); [| reflexivity].
  apply IH. simpl in H. lia.
Qed.

Lemma length_append (a b : string) :
  String.length (a ++ b) = (String.length a + String.length b)%nat.
Proof. induction a as [| x a IH]; simpl; [reflexivity | now rewrite IH]. Qed.

Lemma strstr_after_prefix (P X : string) :
  strstr (P ++ "/bin") "/bin/" = None ->
  strstr (P ++ "/bin/" ++ X) "/bin/" = Some (String.length P).
Proof.
  induction P as [| a P IH]; intros H; [destruct X; reflexivity |].
  cbn [append strstr] in H |- *.
  destruct (prefix "/bin/" (String a (P ++ "/bin"))) eqn:Epre; [discriminate |].
  destruct (strstr (P ++ "/bin") "/bin/") eqn:Erest; [discriminate |].
  assert (Epre' : prefix "/bin/" (String a (P ++ "/bin/" ++ X)) = false).
  { replace (String a (P ++ "/bin/" ++ X))
      with ((String a P ++ "/bin") ++ String "/" X)%string
      by (rewrite append_assoc; reflexivity).
    rewrite prefix_app; [exact Epre |].
    rewrite length_append. simpl. lia. }
  specialize (IH eq_refl). cbn [append] in Epre', IH.
  rewrite Epre', IH. reflexivity.
Qed.

Lemma substring_prefix_exact (a b : string) :
  substring 0 (String.length a) (a ++ b) = a.
Proof.
  induction a as [| x a IH]; [destruct b; reflexivity |].
  cbn [String.length append substring]. now rewrite IH.
Qed.

Lemma icon_file_format (name : string) :
  g_sprintf "/share/pixmaps/cbatticon/%s.png" [ArgStr name]
  = ("/share/pixmaps/cbatticon/" ++ name ++ ".png")%string.
Proof. reflexivity. Qed.

(** X19: a program installed as P/bin/... , where "/bin/" does not occur
    earlier in the path, takes its icons from P/share/pixmaps/cbatticon,
    as long as the path of the executable fits in 255 characters and the
    icon's path in the 256 of the buffer. *)
Theorem icons_found_under_install_prefix (P X name : string) :
  strstr (P ++ "/bin") "/bin/" = None ->
  (String.length (P ++ "/bin/" ++ X) <= 255)%nat ->
  (String.length P + 25 + String.length name + 4 + 1 < 256)%nat ->
  get_icon_path (Some (P ++ "/bin/" ++ X)%string) name
  = Some (P ++ "/share/pixmaps/cbatticon/" ++ name ++ ".png")%string.
Proof.
  intros Hfirst Hlen Hfit. unfold get_icon_path.
  change (ICON_PATH_MAX_LEN - 1)%nat with 255%nat.
  rewrite (substring_prefix_all 255 _ Hlen).
  assert (Hpos : (0 <? String.length (P ++ "/bin/" ++ X))%nat = true).
  { apply Nat.ltb_lt. rewrite length_append. simpl. lia. }
  rewrite Hpos, (strstr_after_prefix P X Hfirst).
  assert (Hok : (String.length P + 25 + String.length name + 4 + 1
                 <? ICON_PATH_MAX_LEN)%nat = true)
    by (apply Nat.ltb_lt; exact Hfit).
  rewrite Hok, substring_prefix_exact, icon_file_format. reflexivity.
Qed.

Lemma icons_found_under_install_prefix_witness :
  get_icon_path (Some "/usr/local/bin/cbatticon"%string) "battery-full"
  = Some "/usr/local/share/pixmaps/cbatticon/battery-full.png"%string.
Proof.
  apply (icons_found_under_install_prefix "/usr/local" "cbatticon" "battery-full");
    [reflexivity | simpl; lia | simpl; lia].
Defined.

Lemma icon_name_length c s pct :
  (String.length (get_icon_name c s pct) <= 32)%nat.
Proof.
  unfold get_icon_name.
  destruct (icon_type c), s; cbn [battery_state_eqb orb];
    repeat match goal with
           | |- context [if ?a <=? ?b then _ else _] => destruct (a <=? b)
           end; apply Nat.leb_le; vm_compute; reflexivity.
Qed.

(** X20: when the path of the executable does not contain "/bin/", the
    icons are looked for under /usr, and no icon name the program makes
    trips the length assertion. *)
Theorem icons_default_to_usr (target : string) c s pct :
  target <> ""%string ->
  strstr (substring 0 255 target) "/bin/" = None ->
  get_icon_path (Some target) (get_icon_name c s pct)
  = Some ("/usr/share/pixmaps/cbatticon/" ++ get_icon_name c s pct ++ ".png")%string.
Proof.
  intros Hne Hno. unfold get_icon_path.
  change (ICON_PATH_MAX_LEN - 1)%nat with 255%nat. rewrite Hno.
  assert (Hpos : (0 <? String.length (substring 0 255 target))%nat = true).
  { destruct target as [| a t]; [contradiction |]. reflexivity. }
  rewrite Hpos.
  pose proof (icon_name_length c s pct) as Hl.
  assert (Hok : (4 + 25 + String.length (get_icon_name c s pct) + 4 + 1
                 <? ICON_PATH_MAX_LEN)%nat = true)
    by (apply Nat.ltb_lt; unfold ICON_PATH_MAX_LEN; lia).
  rewrite Hok, icon_file_format. reflexivity.
Qed.

Lemma icons_default_to_usr_witness :
  get_icon_path (Some "/opt/cbatticon/cbatticon"%string)
    (get_icon_name sample_configuration CHARGING 55)
  = Some "/usr/share/pixmaps/cbatticon/battery-good-charging.png"%string.
Proof.
  apply (icons_default_to_usr "/opt/cbatticon/cbatticon" sample_configuration
           CHARGING 55); [discriminate | reflexivity].
Defined.

(** ** The icon cache *)

Lemma lookup_filter_other (cache : Icons.icons_cache) (k k' : string) :
  String.eqb k k' = false ->
  Icons.g_hash_table_lookup
    (List.filter (fun kv => negb (String.eqb (fst kv) k)) cache) k'
  = Icons.g_hash_table_lookup cache k'.
Proof.
  intros Hne. induction cache as [| [a v] cache IH]; [reflexivity |].
  cbn [List.filter fst Icons.g_hash_table_lookup].
  destruct (String.eqb_spec a k) as [-> | Hak]; cbn [negb].
  - rewrite Hne. exact IH.
  - cbn [Icons.g_hash_table_lookup]. now rewrite IH.
Qed.

Lemma lookup_insert_same cache k v :
  Icons.g_hash_table_lookup (Icons.g_hash_table_insert cache k v) k = Some v.
Proof.
  unfold Icons.g_hash_table_insert. cbn [Icons.g_hash_table_lookup].
  now rewrite String.eqb_refl.
Qed.

Lemma lookup_insert_other cache k v k' :
  String.eqb k k' = false ->
  Icons.g_hash_table_lookup (Icons.g_hash_table_insert cache k v) k'
  = Icons.g_hash_table_lookup cache k'.
Proof.
  intros Hne. unfold Icons.g_hash_table_insert.
  cbn [Icons.g_hash_table_lookup]. rewrite Hne.
  now apply lookup_filter_other.
Qed.

Lemma set_tray_icon_keeps exe readable cache name r k v :
  Icons.set_tray_icon exe readable cache name = Some r ->
  Icons.g_hash_table_lookup cache k = Some v ->
  Icons.g_hash_table_lookup (snd (fst r)) k = Some v.
Proof.
  unfold Icons.set_tray_icon. intros H Hk.
  destruct (Icons.g_hash_table_lookup cache name) as [value |] eqn:Hn.
  - injection H as <-. exact Hk.
  - destruct (get_icon_path exe name) as [filename |]; [| discriminate].
    destruct (readable filename); [| discriminate].
    injection H as <-. cbn [fst snd].
    rewrite lookup_insert_other; [exact Hk |].
    destruct (String.eqb_spec name k) as [-> | _]; [congruence | reflexivity].
Qed.

Lemma set_tray_icon_caches exe readable cache name r :
  Icons.set_tray_icon exe readable cache name = Some r ->
  exists pixbuf,
    Icons.g_hash_table_lookup (snd (fst r)) name = Some pixbuf /\
    In (Icons.gtk_image_set_from_pixbuf pixbuf) (snd r).
Proof.
  unfold Icons.set_tray_icon. intros H.
  destruct (Icons.g_hash_table_lookup cache name) as [value |] eqn:Hn.
  - injection H as <-. exists value. split; [exact Hn | now left].
  - destruct (get_icon_path exe name) as [filename |]; [| discriminate].
    destruct (readable filename); [| discriminate].
    injection H as <-. eexists. split; [apply lookup_insert_same |].
    right. now left.
Qed.

(** X21: an icon that has been shown once is served from the cache: a
    later request for the same name shows the same pixbuf without reading
    any file, cannot fail, even if the file has gone, and leaves the
    cache as it is. *)
Theorem second_request_served_from_cache exe readable exe' readable'
    cache name r :
  Icons.set_tray_icon exe readable cache name = Some r ->
  exists pixbuf,
    In (Icons.gtk_image_set_from_pixbuf pixbuf) (snd r) /\
    Icons.set_tray_icon exe' readable' (snd (fst r)) name
    = Some (name, snd (fst r), [Icons.gtk_image_set_from_pixbuf pixbuf]).
Proof.
  intros H.
  destruct (set_tray_icon_caches exe readable cache name r H) as (pb & Hl & Hin).
  exists pb. split; [exact Hin |].
  unfold Icons.set_tray_icon. now rewrite Hl.
Qed.

Lemma second_request_served_from_cache_witness :
  exists r pixbuf,
    Icons.set_tray_icon (Some "/usr/bin/cbatticon"%string) (fun _ => true) []
      "battery-low" = Some r /\
    Icons.set_tray_icon None (fun _ => false) (snd (fst r)) "battery-low"
    = Some ("battery-low"%string, snd (fst r),
            [Icons.gtk_image_set_from_pixbuf pixbuf]).
Proof.
  eexists.
  assert (H : Icons.set_tray_icon (Some "/usr/bin/cbatticon"%string)
                (fun _ => true) [] "battery-low" = Some _)
    by (vm_compute; reflexivity).
  destruct (second_request_served_from_cache _ _ None (fun _ => false) _ _ _ H)
    as (pb & _ & E).
  exists pb. split; [exact H | exact E].
Defined.

Lemma append_inj_l (a x y : string) : (a ++ x = a ++ y)%string -> x = y.
Proof.
  induction a as [| c a IH]; intros H; [exact H |].
  injection H as H. now apply IH.
Qed.

Lemma append_inj_r (s x y : string) : (x ++ s = y ++ s)%string -> x = y.
Proof.
  revert y. induction x as [| c x IH]; intros y H.
  - destruct y as [| d y]; [reflexivity |].
    apply (f_equal String.length) in H. cbn [append] in H.
    simpl in H. rewrite length_append in H. lia.
  - destruct y as [| d y].
    + apply (f_equal String.length) in H. cbn [append] in H.
      simpl in H. rewrite length_append in H. lia.
    + cbn [append] in H. injection H as -> H. f_equal. now apply IH.
Qed.

Lemma get_icon_path_form exe :
  exists pre, forall name filename,
    get_icon_path exe name = Some filename ->
    filename = (pre ++ "/share/pixmaps/cbatticon/" ++ name ++ ".png")%string.
Proof.
  unfold get_icon_path. destruct exe as [target |].
  - destruct (0 <? String.length (substring 0 (ICON_PATH_MAX_LEN - 1) target))%nat.
    + destruct (strstr (substring 0 (ICON_PATH_MAX_LEN - 1) target) "/bin/")
        as [offset |].
      * exists (substring 0 offset (substring 0 (ICON_PATH_MAX_LEN - 1) target)).
        intros name filename H.
        destruct (_ <? ICON_PATH_MAX_LEN)%nat; [| discriminate].
        injection H as <-. reflexivity.
      * exists "/usr"%string. intros name filename H.
        destruct (_ <? ICON_PATH_MAX_LEN)%nat; [| discriminate].
        injection H as <-. reflexivity.
    + exists ""%string. discriminate.
  - exists ""%string. discriminate.
Qed.

Lemma get_icon_path_injective exe n m filename :
  get_icon_path exe n = Some filename ->
  get_icon_path exe m = Some filename ->
  n = m.
Proof.
  destruct (get_icon_path_form exe) as [pre Hpre]. intros Hn Hm.
  apply Hpre in Hn. apply Hpre in Hm. rewrite Hn in Hm.
  apply append_inj_l, append_inj_l, append_inj_r in Hm. exact Hm.
Qed.

Lemma files_read_app a b :
  Icons.files_read (a ++ b) = (Icons.files_read a ++ Icons.files_read b)%list.
Proof.
  induction a as [| [f | pb] a IH]; cbn [app Icons.files_read];
    [reflexivity | now rewrite IH | exact IH].
Qed.

Lemma set_tray_icon_reads exe readable cache name r :
  Icons.set_tray_icon exe readable cache name = Some r ->
  (Icons.files_read (snd r) = [] /\ snd (fst r) = cache) \/
  (exists filename,
     Icons.files_read (snd r) = [filename] /\
     get_icon_path exe name = Some filename /\
     Icons.g_hash_table_lookup cache name = None).
Proof.
  unfold Icons.set_tray_icon. intros H.
  destruct (Icons.g_hash_table_lookup cache name) as [value |] eqn:Hn.
  - injection H as <-. left. split; reflexivity.
  - destruct (get_icon_path exe name) as [filename |] eqn:Hp; [| discriminate].
    destruct (readable filename); [| discriminate].
    injection H as <-. right. exists filename. repeat split; reflexivity.
Qed.

(** X22: over any series of icon requests no file is read twice, and a
    file is only read for a requested name that was not in the cache at
    the start. *)
Theorem no_icon_file_read_twice exe readable cache names cache' evs :
  Icons.set_tray_icons exe readable cache names = Some (cache', evs) ->
  NoDup (Icons.files_read evs) /\
  (forall filename,
     In filename (Icons.files_read evs) ->
     exists name,
       In name names /\ get_icon_path exe name = Some filename /\
       Icons.g_hash_table_lookup cache name = None).
Proof.
  revert cache cache' evs.
  induction names as [| name names IH]; intros cache cache' evs H;
    cbn [Icons.set_tray_icons] in H.
  - injection H as _ <-. split; [constructor | intros f []].
  - destruct (Icons.set_tray_icon exe readable cache name)
      as [[[n1 cache1] ev] |] eqn:E1; [| discriminate].
    destruct (Icons.set_tray_icons exe readable cache1 names)
      as [[cache2 evs2] |] eqn:E2; [| discriminate].
    injection H as _ <-.
    destruct (IH cache1 cache2 evs2 E2) as [Hnd Hfrom].
    assert (Hkeep : forall k,
              Icons.g_hash_table_lookup cache1 k = None ->
              Icons.g_hash_table_lookup cache k = None).
    { intros k Hk. destruct (Icons.g_hash_table_lookup cache k) as [v |] eqn:Hc;
        [| reflexivity].
      pose proof (set_tray_icon_keeps exe readable cache name _ k v E1 Hc) as Hc1.
      cbn [fst snd] in Hc1. congruence. }
    rewrite files_read_app.
    destruct (set_tray_icon_reads exe readable cache name _ E1)
      as [[Hr _] | (f0 & Hr & Hp0 & Hmiss)]; cbn [fst snd] in Hr; rewrite Hr.
    + cbn [app]. split; [exact Hnd |].
      intros f Hf. destruct (Hfrom f Hf) as (n & Hin & Hp & Hl).
      exists n. repeat split; [now right | exact Hp | now apply Hkeep].
    + cbn [app]. split.
      * constructor; [| exact Hnd]. intros Hin.
        destruct (Hfrom f0 Hin) as (n & _ & Hp & Hl).
        pose proof (get_icon_path_injective exe n name f0 Hp Hp0) as ->.
        destruct (set_tray_icon_caches exe readable cache name _ E1)
          as (pb & Hc & _).
        cbn [fst snd] in Hc. congruence.
      * intros f [<- | Hf].
        -- exists name. repeat split; [now left | exact Hp0 | exact Hmiss].
        -- destruct (Hfrom f Hf) as (n & Hin & Hp & Hl).
           exists n. repeat split; [now right | exact Hp | now apply Hkeep].
Qed.

Lemma no_icon_file_read_twice_witness :
  exists cache' evs,
    Icons.set_tray_icons (Some "/usr/bin/cbatticon"%string) (fun _ => true) []
      ["battery-low"; "battery-caution"; "battery-low"; "battery-caution"]%string
    = Some (cache', evs) /\
    NoDup (Icons.files_read evs).
Proof.
  eexists. eexists.
  assert (H : Icons.set_tray_icons (Some "/usr/bin/cbatticon"%string)
                (fun _ => true) []
                ["battery-low"; "battery-caution"; "battery-low";
                 "battery-caution"]%string = Some (_, _))
    by (vm_compute; reflexivity).
  split; [exact H |].
  exact (proj1 (no_icon_file_read_twice _ _ _ _ _ _ H)).
Defined.

(** ** What the tooltip says while discharging *)

Lemma check_low_level_string c pct ts b st :
  snd (fst (check_low_level c pct ts b st))
  = if negb (battery_low st) && (pct <=? low_level c)
    then get_battery_string LOW_LEVEL pct else b.
Proof.
  unfold check_low_level.
  destruct (negb (battery_low st) && (pct <=? low_level c)); reflexivity.
Qed.

Lemma check_critical_level_string c pct ts b st :
  snd (fst (check_critical_level c pct ts b st))
  = if negb (battery_critical st) && (pct <=? critical_level c)
    then get_battery_string CRITICAL_LEVEL pct else b.
Proof.
  unfold check_critical_level.
  destruct (negb (battery_critical st) && (pct <=? critical_level c)); reflexivity.
Qed.

(** X23: while discharging the tooltip names a threshold only in the poll
    that crosses it: it reads "critical" when the critical threshold is
    crossed in this poll, else "low" when the low one is, and otherwise
    the plain status string, however low the percentage is. *)
Theorem discharging_tooltip_wording g c s p st :
  is_discharging s ->
  let pct := battery_percentage (apm_read p) in
  let wording :=
    if crosses_critical c st pct then get_battery_string CRITICAL_LEVEL pct
    else if crosses_low c st pct then get_battery_string LOW_LEVEL pct
    else get_battery_string s pct in
  exists st' ev time,
    switch_battery_status g c s p st = Some (st', ev) /\
    get_battery_charge g (poll_clock p) (apm_read p) true (memo st)
      = Some (pct, time, memo st) /\
    In (set_tooltip_text (get_tooltip_string wording (get_time_string time))) ev.
Proof.
  intros Hs pct wording. rewrite (switch_discharging g c s p st Hs).
  destruct (discharging_case_blocks g c s p st)
    as (time & st0 & ev0 & st1 & b1 & ev1 & st2 & b2 & ev2 & st3 & ev3 & Hb).
  cbv zeta in Hb. fold pct in Hb. destruct Hb as (Hc & E0 & E1 & E2 & E3 & E).
  eexists. eexists. exists time. split; [exact E |]. split; [exact Hc |].
  pose proof (enter_discharging_state (get_battery_string s pct)
                (get_time_string time) st) as D.
  pose proof (check_low_level_state c pct (get_time_string time)
                (get_battery_string s pct) st0) as C.
  pose proof (check_low_level_string c pct (get_time_string time)
                (get_battery_string s pct) st0) as Cs.
  pose proof (check_critical_level_string c pct (get_time_string time) b1 st1)
    as Bs.
  cbv zeta in C, D. rewrite E0 in D. rewrite E1 in C, Cs. rewrite E2 in Bs.
  cbn [fst snd] in C, D, Cs, Bs.
  destruct D as (_ & D2 & D3 & _). destruct C as (_ & _ & C3 & _).
  rewrite C3, D3 in Bs. rewrite D2 in Cs.
  assert (Ew : b2 = wording).
  { subst wording. unfold crosses_critical, crosses_low. rewrite Bs, Cs.
    reflexivity. }
  rewrite <- Ew. rewrite !in_app_iff. right. right. right. left. now left.
Qed.

Lemma discharging_tooltip_wording_witness :
  let st :=
    {| old_battery_status := Some DISCHARGING;
       battery_low := true; battery_critical := true;
       spawn_command_low := false; spawn_command_critical := false;
       memo := estimation_init 0 |} in
  exists st' ev,
    switch_battery_status monotonic_elapsed sample_configuration DISCHARGING
      (sample_poll 2 2) st = Some (st', ev) /\
    In (set_tooltip_text
          (get_tooltip_string (get_battery_string DISCHARGING 2)
             (get_time_string 90))) ev.
Proof.
  cbv zeta.
  destruct (discharging_tooltip_wording monotonic_elapsed sample_configuration
              DISCHARGING (sample_poll 2 2)
              {| old_battery_status := Some DISCHARGING;
                 battery_low := true; battery_critical := true;
                 spawn_command_low := false; spawn_command_critical := false;
                 memo := estimation_init 0 |} (or_introl eq_refl))
    as (st' & ev & time & E & Hc & Hin).
  exists st', ev. split; [exact E |].
  injection Hc as <-. exact Hin.
Defined.

(** ** The order of the two alarms *)

Lemma update_keeps_alarm_order g c p st st' ev :
  critical_level c <= low_level c ->
  update_tray_icon_status g c p st = Some (st', ev) ->
  (battery_critical st = true -> battery_low st = true) ->
  battery_critical st' = true -> battery_low st' = true.
Proof.
  unfold update_tray_icon_status. intros Hc H Hst.
  destruct (get_battery_status (apm_read p)) eqn:Hs;
    cbn [switch_battery_status] in H.
  1-3: injection H as H; apply (f_equal fst) in H; cbn [fst] in H;
    rewrite <- H;
    match goal with
    | |- context [HANDLE_BATTERY_STATUS ?c ?s ?st ?a ?b ?x ?y] =>
        destruct (HANDLE_BATTERY_STATUS_state c s st a b x y)
          as (_ & A & B & _)
    end; rewrite A, B; exact Hst.
  - destruct (charging_case_result g c p st st' ev H)
      as (st0 & pct & time & E & _ & E2 & E3 & _).
    apply (f_equal fst) in E. cbn [fst] in E. rewrite E.
    destruct (HANDLE_BATTERY_STATUS_state c CHARGING st0 pct time
                NOTIFY_EXPIRES_DEFAULT NOTIFY_URGENCY_NORMAL)
      as (_ & A & B & _).
    rewrite A, B, E2, E3. exact Hst.
  - destruct (discharging_case_spec g c DISCHARGING p st (or_introl eq_refl))
      as (st1 & ev1 & E & _ & _ & Hlow & Hcrit & _).
    rewrite E in H. injection H as <- _. rewrite Hlow, Hcrit.
    unfold crosses_low, crosses_critical, low_latch, critical_latch.
    destruct (new_session st), (battery_low st), (battery_critical st),
      (Z.leb_spec (battery_percentage (apm_read p)) (low_level c)),
      (Z.leb_spec (battery_percentage (apm_read p)) (critical_level c));
      cbn; intros; try reflexivity; try discriminate; try lia;
      try (specialize (Hst eq_refl); discriminate).
  - destruct (discharging_case_spec g c NOTCHARGING p st (or_intror eq_refl))
      as (st1 & ev1 & E & _ & _ & Hlow & Hcrit & _).
    rewrite E in H. injection H as <- _. rewrite Hlow, Hcrit.
    unfold crosses_low, crosses_critical, low_latch, critical_latch.
    destruct (new_session st), (battery_low st), (battery_critical st),
      (Z.leb_spec (battery_percentage (apm_read p)) (low_level c)),
      (Z.leb_spec (battery_percentage (apm_read p)) (critical_level c));
      cbn; intros; try reflexivity; try discriminate; try lia;
      try (specialize (Hst eq_refl); discriminate).
  - injection H as <- _. exact Hst.
  - injection H as <- _. exact Hst.
Qed.

(** X24: with critical_level <= low_level, as the option checks leave
    them, the critical alarm never comes before the low one: after any
    series of polls from the start of the program, the critical latch is
    set only if the low latch is. *)
Theorem critical_alarm_never_before_low g c now ps st evs :
  critical_level c <= low_level c ->
  run g c ps (tray_state_init now) = Some (st, evs) ->
  battery_critical st = true -> battery_low st = true.
Proof.
  intros Hc. unfold run.
  assert (Hgen : forall st0 st evs,
            (battery_critical st0 = true -> battery_low st0 = true) ->
            run_switch g c
              (map (fun p => (get_battery_status (apm_read p), p)) ps) st0
            = Some (st, evs) ->
            battery_critical st = true -> battery_low st = true).
  { induction ps as [| p ps IH]; intros st0 st1 evs1 H0 H;
      cbn [map run_switch] in H.
    - injection H as <- _. exact H0.
    - destruct (switch_battery_status g c (get_battery_status (apm_read p)) p st0)
        as [[st2 ev] |] eqn:E; [| discriminate].
      destruct (run_switch g c _ st2) as [[st3 evs3] |] eqn:E2; [| discriminate].
      injection H as <- _.
      apply (IH st2 st3 evs3); [| exact E2].
      exact (update_keeps_alarm_order g c p st0 st2 ev Hc E H0). }
  intros H. apply (Hgen (tray_state_init now) st evs); [| exact H].
  discriminate.
Qed.

Lemma critical_alarm_never_before_low_witness :
  exists st evs,
    run monotonic_elapsed sample_configuration
      [sample_poll 0 50; sample_poll 2 3; sample_poll 3 10; sample_poll 1 4]
      (tray_state_init 0) = Some (st, evs) /\
    battery_critical st = true /\ battery_low st = true.
Proof.
  eexists. eexists.
  assert (H : run monotonic_elapsed sample_configuration
                [sample_poll 0 50; sample_poll 2 3; sample_poll 3 10;
                 sample_poll 1 4] (tray_state_init 0) = Some (_, _))
    by (vm_compute; reflexivity).
  split; [exact H |]. split; [reflexivity |].
  apply (critical_alarm_never_before_low monotonic_elapsed sample_configuration
           0 _ _ _ ltac:(simpl; lia) H).
  reflexivity.
Defined.

Lemma announced_commands_are_spawned_witness :
  exists st' ev,
    update_tray_icon_status monotonic_elapsed sample_configuration
      (sample_poll 2 3) (tray_state_init 0) = Some (st', ev) /\
    cnt is_skip ev = 0%nat /\ cnt is_spawn ev = 2%nat.
Proof.
  eexists. eexists.
  assert (H : update_tray_icon_status monotonic_elapsed sample_configuration
                (sample_poll 2 3) (tray_state_init 0) = Some (_, _))
    by (vm_compute; reflexivity).
  split; [exact H |].
  destruct (announced_commands_are_spawned _ _ _ _ _ _ H) as [Hk Hn].
  split; [exact Hk | reflexivity].
Defined.
